(** * E-bloc sensor platform: a shallow embedding of
      [custom_components/e-bloc/sensor.py] and the properties of its
      coordinator and of its sensors.

    The Python code works on JSON-decoded values, raises and catches
    exceptions, mutates the coordinator object and talks to a remote
    portal.  Values are an inductive type, exceptions are the left side of
    a sum, the coordinator and the portal are threaded as explicit state. *)

From Stdlib Require Import ZArith List String Ascii Bool Lia DecimalString.
From Stdlib Require Import PrimFloat SpecFloat FloatOps.
From Stdlib Require DecimalPos DecimalN.
Import ListNotations.
#[local] Set Warnings "-register-all,-inexact-float".
Local Open Scope string_scope.
Local Open Scope Z_scope.

(** ** Python values *)

(** What [json.loads] can produce, which is also all the code builds
    itself.  A [dict] keeps insertion order, so it is an association
    list; its keys are strings because JSON object keys are. *)
Inductive pyval : Type :=
| PNone
| PBool (b : bool)
| PInt (n : Z)
| PFloat (x : float)
| PStr (s : string)
| PList (l : list pyval)
| PDict (d : list (string * pyval)).

Definition pydict : Type := list (string * pyval).

(** ** Exceptions *)

Inductive exn_kind : Type :=
| KeyError | IndexError | AttributeError | TypeError | ValueError
| OverflowError | ZeroDivisionError | ClientError | UpdateFailed.

(** An exception is its class and [str(e)]. Every class here derives from
    [Exception], so [except Exception] catches each of them. The texts of
    the built-in exceptions are given in short; no property rests on
    them. *)
Record exn : Type := Exn { exn_class : exn_kind; exn_str : string }.

Definition result (A : Type) : Type := (exn + A)%type.

Definition Ok {A} (a : A) : result A := inr a.
Definition Raise {A} (k : exn_kind) (msg : string) : result A := inl (Exn k msg).

Definition rbind {A B} (r : result A) (f : A -> result B) : result B :=
  match r with
  | inl e => inl e
  | inr a => f a
  end.

Declare Scope result_scope.
Delimit Scope result_scope with result.
Notation "x <- r ;; k" := (rbind r (fun x => k))
  (at level 61, r at next level, right associativity) : result_scope.

Definition raises {A} (r : result A) (k : exn_kind) : Prop :=
  exists msg, r = Raise k msg.

Definition returns {A} (r : result A) : Prop := exists a, r = Ok a.

Definition exn_kind_eqb (a b : exn_kind) : bool :=
  match a, b with
  | KeyError, KeyError | IndexError, IndexError
  | AttributeError, AttributeError | TypeError, TypeError
  | ValueError, ValueError | OverflowError, OverflowError
  | ZeroDivisionError, ZeroDivisionError
  | ClientError, ClientError | UpdateFailed, UpdateFailed => true
  | _, _ => false
  end.

(** ** Built-in operations on values *)

(** [bool(v)]. *)
Definition truthy (v : pyval) : bool :=
  match v with
  | PNone => false
  | PBool b => b
  | PInt n => negb (n =? 0)
  | PFloat x => negb (PrimFloat.eqb x 0%float)
  | PStr s => negb (s =? "")%string
  | PList l => match l with [] => false | _ => true end
  | PDict d => match d with [] => false | _ => true end
  end.

(** [a or b]: [b] is evaluated only when [a] is falsy. *)
Definition py_or (a : pyval) (b : result pyval) : result pyval :=
  if truthy a then Ok a else b.

(** [v == s] for a string literal [s]: only a [str] with the same
    characters is equal to it. *)
Definition py_eq_str (v : pyval) (s : string) : bool :=
  match v with
  | PStr t => (t =? s)%string
  | _ => false
  end.

Definition type_name (v : pyval) : string :=
  match v with
  | PNone => "NoneType" | PBool _ => "bool" | PInt _ => "int"
  | PFloat _ => "float" | PStr _ => "str" | PList _ => "list"
  | PDict _ => "dict"
  end.

Fixpoint dict_get (d : pydict) (k : string) : option pyval :=
  match d with
  | [] => None
  | (k', v) :: rest => if (k' =? k)%string then Some v else dict_get rest k
  end.

(** [d[k] = v]: an existing key keeps its place, a new one goes last. *)
Fixpoint dict_set (d : pydict) (k : string) (v : pyval) : pydict :=
  match d with
  | [] => [(k, v)]
  | (k', v') :: rest =>
      if (k' =? k)%string then (k', v) :: rest else (k', v') :: dict_set rest k v
  end.

Definition dict_keys (d : pydict) : list string := map fst d.
Definition dict_values (d : pydict) : list pyval := map snd d.

(** A dict never holds a key twice. *)
Definition dict_wf (d : pydict) : Prop := NoDup (dict_keys d).

(** [v[k]] with a string key. *)
Definition py_getitem (v : pyval) (k : string) : result pyval :=
  match v with
  | PDict d =>
      match dict_get d k with
      | Some x => Ok x
      | None => Raise KeyError k
      end
  | PStr _ => Raise TypeError "string indices must be integers"
  | PList _ => Raise TypeError "list indices must be integers or slices, not str"
  | _ => Raise TypeError (type_name v ++ " object is not subscriptable")
  end.

(** [v.get(k, default)]; only a dict has the method. *)
Definition py_get (v : pyval) (k : string) (default : pyval) : result pyval :=
  match v with
  | PDict d =>
      match dict_get d k with
      | Some x => Ok x
      | None => Ok default
      end
  | _ => Raise AttributeError (type_name v ++ " object has no attribute get")
  end.

(** [v.keys()]. *)
Definition py_keys (v : pyval) : result (list string) :=
  match v with
  | PDict d => Ok (dict_keys d)
  | _ => Raise AttributeError (type_name v ++ " object has no attribute keys")
  end.

(** [l[0]] on a list. *)
Definition list_first {A} (l : list A) : result A :=
  match l with
  | x :: _ => Ok x
  | [] => Raise IndexError "list index out of range"
  end.

(** ** The active month *)

Local Open Scope result_scope.

(** [{k: lista_luni[k] for k in ks}], built key by key. *)
Fixpoint dict_comprehension (lista_luni : pyval) (ks : list string) (acc : pydict)
  : result pydict :=
  match ks with
  | [] => Ok acc
  | k :: ks' =>
      v <- py_getitem lista_luni k ;;
      dict_comprehension lista_luni ks' (dict_set acc k v)
  end.

(** [next((v['luna'] for k, v in items if v['open'] == '0'), None)]: the
    generator is consumed up to its first element only. *)
Fixpoint next_closed_luna (items : pydict) : result pyval :=
  match items with
  | [] => Ok PNone
  | (_, v) :: rest =>
      o <- py_getitem v "open" ;;
      if py_eq_str o "0" then py_getitem v "luna" else next_closed_luna rest
  end.

(** Line 42, on the dict built by line 41. *)
Definition active_of_first_three (first_three_months : pydict) : result pyval :=
  selected <- next_closed_luna first_three_months ;;
  py_or selected
    (first <- list_first (dict_values first_three_months) ;;
     py_getitem first "luna").

Definition _get_luna_activa (lista_luni : pyval) : result pyval :=
  ks <- py_keys lista_luni ;;
  first_three_months <- dict_comprehension lista_luni (firstn 3 ks) [] ;;
  active_of_first_three first_three_months.

(** A month entry carries the two fields the code reads. *)
Definition month_entry (e : pyval) : Prop :=
  returns (py_getitem e "luna") /\ returns (py_getitem e "open").

Definition entry_luna (e : pyval) : pyval :=
  match py_getitem e "luna" with
  | inr v => v
  | inl _ => PNone
  end.

Definition entry_closed (e : pyval) : bool :=
  match py_getitem e "open" with
  | inr o => py_eq_str o "0"
  | inl _ => false
  end.

(** The active month in the words of the specification: the month of the
    first closed entry among the first three, else the month of the very
    first entry. *)
Definition stated_active_month (entries : list pyval) : pyval :=
  match find entry_closed (firstn 3 entries) with
  | Some e => entry_luna e
  | None => entry_luna (hd PNone entries)
  end.

(** The same, with the month of the closed entry kept only when it is
    truthy. *)
Definition active_month (entries : list pyval) : pyval :=
  match find entry_closed (firstn 3 entries) with
  | Some e => if truthy (entry_luna e) then entry_luna e else entry_luna (hd PNone entries)
  | None => entry_luna (hd PNone entries)
  end.

(** ** Numbers

    A Python [float] is a binary64 number, here Rocq's primitive [float];
    the two operations the runtime rounds on its own terms (integer true
    division and [round]) are computed on the exact value through
    [SpecFloat]. *)

Definition Z2SF (z : Z) : spec_float :=
  match z with
  | Z0 => S754_zero false
  | Zpos p => S754_finite false p 0
  | Zneg p => S754_finite true p 0
  end.

Definition SF_is_infinite (f : spec_float) : bool :=
  match f with
  | S754_infinity _ => true
  | _ => false
  end.

(** [float(n)] for an [int]: the nearest float, or [OverflowError]. *)
Definition float_of_int (n : Z) : result float :=
  let f := binary_normalize prec emax n 0 false in
  if SF_is_infinite f then Raise OverflowError "int too large to convert to float"
  else Ok (SF2Prim f).

(** [a / b] on two [int]s: the exact quotient, rounded once. *)
Definition int_truediv (a b : Z) : result float :=
  if b =? 0 then Raise ZeroDivisionError "division by zero"
  else
    let f := SFdiv prec emax (Z2SF a) (Z2SF b) in
    if SF_is_infinite f
    then Raise OverflowError "integer division result too large for a float"
    else Ok (SF2Prim f).

(** The integer nearest to [p / q], ties to the even one ([0 <= p], [0 < q]). *)
Definition div_half_even (p q : Z) : Z :=
  let d := p / q in
  let r := p mod q in
  if 2 * r <? q then d
  else if q <? 2 * r then d + 1
  else if Z.even d then d else d + 1.

(** [|x| * 10^ndigits] for a finite non-zero [x = m * 2^e], rounded to an
    integer: the digits that [round] and the [f] format both keep. *)
Definition scaled_digits (m : positive) (e : Z) (ndigits : nat) : Z :=
  let p := Zpos m * 10 ^ Z.of_nat ndigits in
  if 0 <=? e then p * 2 ^ e else div_half_even p (2 ^ (- e)).

(** [round(x, ndigits)] with [0 <= ndigits]: the decimal with [ndigits]
    places nearest to [x], converted back to the nearest float. *)
Definition py_round (x : float) (ndigits : nat) : result float :=
  match Prim2SF x with
  | S754_finite s m e =>
      match scaled_digits m e ndigits with
      | Zpos d =>
          let f := SFdiv prec emax (S754_finite s d 0) (Z2SF (10 ^ Z.of_nat ndigits)) in
          if SF_is_infinite f
          then Raise OverflowError "rounded value too large to represent"
          else Ok (SF2Prim f)
      | _ => Ok (SF2Prim (S754_zero s))
      end
  | _ => Ok x
  end.

Fixpoint zero_pad (width : nat) (s : string) : string :=
  if (width <=? String.length s)%nat then s
  else match width with
       | O => s
       | S w => "0" ++ zero_pad w s
       end.

Definition digits_of (n : Z) : string := NilZero.string_of_uint (N.to_uint (Z.to_N n)).

(** [format(x, '.<ndigits>f')]. *)
Definition format_f (ndigits : nat) (x : float) : string :=
  match Prim2SF x with
  | S754_nan => "nan"
  | S754_infinity s => if s then "-inf" else "inf"
  | S754_zero s =>
      (if s then "-" else "") ++ "0"
      ++ (if (ndigits =? 0)%nat then "" else "." ++ zero_pad ndigits "")
  | S754_finite s m e =>
      let d := scaled_digits m e ndigits in
      let unit := 10 ^ Z.of_nat ndigits in
      (if s then "-" else "") ++ digits_of (d / unit)
      ++ (if (ndigits =? 0)%nat then ""
          else "." ++ zero_pad ndigits (digits_of (d mod unit)))
  end.

(** The integer part of a finite float, towards zero. *)
Definition trunc_float (x : float) : result Z :=
  match Prim2SF x with
  | S754_zero _ => Ok 0
  | S754_finite s m e =>
      let a := if 0 <=? e then Zpos m * 2 ^ e else Zpos m / 2 ^ (- e) in
      Ok (if s then - a else a)
  | S754_infinity _ => Raise OverflowError "cannot convert float infinity to integer"
  | S754_nan => Raise ValueError "cannot convert float NaN to integer"
  end.

(** What the interpreter brings and the repository does not define: how
    [str()] prints a value and which texts [int()] and [float()] accept. *)
Record Runtime : Type := {
  py_str : pyval -> string;
  int_of_str : string -> option Z;
  float_of_str : string -> option float
}.

Section Conversions.
Context (rt : Runtime).

(** [int(v)]. *)
Definition py_int (v : pyval) : result Z :=
  match v with
  | PInt n => Ok n
  | PBool b => Ok (if b then 1 else 0)
  | PFloat x => trunc_float x
  | PStr s =>
      match int_of_str rt s with
      | Some n => Ok n
      | None => Raise ValueError "invalid literal for int() with base 10"
      end
  | _ => Raise TypeError "int() argument must be a string or a real number"
  end.

(** [float(v)]. *)
Definition py_float (v : pyval) : result float :=
  match v with
  | PFloat x => Ok x
  | PInt n => float_of_int n
  | PBool b => Ok (if b then 1%float else 0%float)
  | PStr s =>
      match float_of_str rt s with
      | Some x => Ok x
      | None => Raise ValueError "could not convert string to float"
      end
  | _ => Raise TypeError "float() argument must be a string or a real number"
  end.

(** [f"{n / 100:.2f} RON"] for [n = int(v)]. *)
Definition format_ron (v : pyval) : result string :=
  n <- py_int v ;;
  q <- int_truediv n 100 ;;
  Ok (format_f 2 q ++ " RON").
End Conversions.

(** [try: body  except (k1, k2, ...): handler]. *)
Definition try_except {A} (body : result A) (classes : list exn_kind)
    (handler : exn -> result A) : result A :=
  match body with
  | inl e => if existsb (exn_kind_eqb (exn_class e)) classes then handler e else inl e
  | inr a => inr a
  end.

(** ** The sensors

    Every sensor reads [self._coordinator.data], the snapshot published
    last; [data] below is that value. *)

(** [data.get(group, {}).get(item, {})], the prefix of most reads. *)
Definition group_item (data : pyval) (group item : string) : result pyval :=
  g <- py_get data group (PDict []) ;;
  py_get g item (PDict []).

(** [data.get("home", {}).get("1", {}).get(field)]. *)
Definition home_field (data : pyval) (field : string) : result pyval :=
  d <- group_item data "home" "1" ;;
  py_get d field PNone.

(** ["Da" if v == "1" else "Nu"]. *)
Definition da_nu (v : pyval) : pyval :=
  if py_eq_str v "1" then PStr "Da" else PStr "Nu".

(** [round(float(data.get("index_nou", 0)) / 1000, 3)] under
    [except (ValueError, TypeError): return None], shared by the four
    meter sensors, which differ in the item of ["index"] they read. *)
Section Meter.
Context (rt : Runtime).

Definition meter_value (data : pyval) (item : string) : result pyval :=
  d <- group_item data "index" item ;;
  try_except
    (raw <- py_get d "index_nou" (PInt 0) ;;
     x <- py_float rt raw ;;
     y <- py_round (PrimFloat.div x 1000%float) 3 ;;
     Ok (PFloat y))
    [ValueError; TypeError]
    (fun _ => Ok PNone).
End Meter.

Module ClientSensor.
Definition native_value (data : pyval) : result pyval :=
  home_field data "cod_client".

Section WithRuntime.
Context (rt : Runtime).

Definition extra_state_attributes (self_data : pyval) : result pyval :=
  data <- group_item self_data "home" "1" ;;
  ap <- py_get data "ap" PNone ;;
  nr_pers <- py_get data "nr_pers_afisat" PNone ;;
  datorie <- py_get data "datorie" (PInt 0) ;;
  restanta <- format_ron rt datorie ;;
  ultima_zi <- py_get data "ultima_zi_plata" PNone ;;
  citite <- py_get data "contoare_citite" PNone ;;
  start <- py_get data "citire_contoare_start" (PStr "") ;;
  sfarsit <- py_get data "citire_contoare_end" (PStr "") ;;
  luna_veche <- py_get data "luna_veche" PNone ;;
  nivel <- py_get data "nivel_restanta" PNone ;;
  Ok (PDict
        [("Apartament", ap);
         ("Persoane", nr_pers);
         ("Restanță", PStr restanta);
         ("Ultima zi plată", ultima_zi);
         ("Contor trimis", da_nu citite);
         ("Perioadă citire", PStr (py_str rt start ++ " - " ++ py_str rt sfarsit));
         ("Luna veche", luna_veche);
         ("Nivel restanță", nivel)]).
End WithRuntime.
End ClientSensor.

Module ApaReceSensor.
Definition native_value (rt : Runtime) (data : pyval) : result pyval :=
  meter_value rt data "2".
End ApaReceSensor.

Module ApaCaldaSensor.
Definition native_value (rt : Runtime) (data : pyval) : result pyval :=
  meter_value rt data "3".
End ApaCaldaSensor.

Module CalduraSensor.
Definition native_value (rt : Runtime) (data : pyval) : result pyval :=
  meter_value rt data "4".
End CalduraSensor.

Module CurentSensor.
Definition native_value (rt : Runtime) (data : pyval) : result pyval :=
  meter_value rt data "5".
End CurentSensor.

Module PlatiSensor.
Definition native_value (data : pyval) : result pyval :=
  receipts <- py_get data "receipts" (PDict []) ;;
  match receipts with
  | PDict d => Ok (PInt (Z.of_nat (List.length d)))
  | _ => Ok (PInt 0)
  end.

Section WithRuntime.
Context (rt : Runtime).

(** The value of one entry of the comprehension. *)
Definition receipt_line (r : pyval) : result string :=
  numar <- py_get r "numar" (PStr "") ;;
  data <- py_get r "data" (PStr "") ;;
  suma <- py_get r "suma" (PInt 0) ;;
  ron <- format_ron rt suma ;;
  Ok (py_str rt numar ++ " - " ++ py_str rt data ++ " - " ++ ron).

(** The comprehension over [enumerate(receipts.values(), i)]. *)
Fixpoint receipt_lines (rs : list pyval) (i : Z) (acc : pydict) : result pydict :=
  match rs with
  | [] => Ok acc
  | r :: rs' =>
      line <- receipt_line r ;;
      receipt_lines rs' (i + 1) (dict_set acc ("Chitanța " ++ digits_of i) (PStr line))
  end.

Definition extra_state_attributes (data : pyval) : result pyval :=
  receipts <- py_get data "receipts" (PDict []) ;;
  match receipts with
  | PDict d =>
      attrs <- receipt_lines (dict_values d) 1 [] ;;
      Ok (PDict attrs)
  | _ => Ok (PDict [])
  end.
End WithRuntime.
End PlatiSensor.

Module ApartamentSensor.
Definition native_value (data : pyval) : result pyval := home_field data "ap".
End ApartamentSensor.

Module PersoaneSensor.
Definition native_value (data : pyval) : result pyval :=
  home_field data "nr_pers_afisat".
End PersoaneSensor.

Module RestantaSensor.
Definition native_value (rt : Runtime) (data : pyval) : result pyval :=
  datorie <- home_field data "datorie" ;;
  if truthy datorie then
    n <- py_int rt datorie ;;
    q <- int_truediv n 100 ;;
    y <- py_round q 2 ;;
    Ok (PFloat y)
  else Ok (PFloat 0%float).
End RestantaSensor.

Module UltimaZiSensor.
Definition native_value (data : pyval) : result pyval :=
  home_field data "ultima_zi_plata".
End UltimaZiSensor.

Module ContorTrimisSensor.
Definition native_value (data : pyval) : result pyval :=
  val <- home_field data "contoare_citite" ;;
  Ok (da_nu val).
End ContorTrimisSensor.

Module IncepereCitireSensor.
Definition native_value (data : pyval) : result pyval :=
  home_field data "citire_contoare_start".
End IncepereCitireSensor.

Module IncheiereCitireSensor.
Definition native_value (data : pyval) : result pyval :=
  home_field data "citire_contoare_end".
End IncheiereCitireSensor.

Module LunaVecheSensor.
Definition native_value (data : pyval) : result pyval :=
  home_field data "luna_veche".
End LunaVecheSensor.

Module LunaCurentaSensor.
Definition native_value (data : pyval) : result pyval :=
  py_get data "luna_activa" PNone.
End LunaCurentaSensor.

Module NivelRestantaSensor.
Definition native_value (data : pyval) : result pyval :=
  home_field data "nivel_restanta".
End NivelRestantaSensor.

(** ** The coordinator *)

(** [needle in haystack] on strings. *)
Fixpoint str_contains (needle haystack : string) : bool :=
  if String.prefix needle haystack then true
  else match haystack with
       | EmptyString => false
       | String _ rest => str_contains needle rest
       end.

Definition headers : Type := list (string * string).

(** The names imported from [.const], whose values the functions below
    never inspect. *)
Record Const : Type := {
  URL_LOGIN : string;
  HEADERS_LOGIN : headers;
  HEADERS_POST : headers;
  URL_HOME : string;
  URL_INDEX : string;
  URL_RECEIPTS : string;
  URL_LISTA_LUNI : string
}.

(** One call of [session.post(url, data=..., headers=...)]. *)
Record Request : Type := {
  req_url : string;
  req_data : pyval;
  req_headers : headers
}.

(** What the code reads of a response: [status], [await text()] and
    [await json()], of which the last two may raise. *)
Record Response : Type := {
  status : Z;
  text : result string;
  json : result pyval
}.

(** [ClientSession()]. *)
Inductive Session : Type := ClientSession.

(** The attributes of the coordinator object: the three that [__init__]
    sets and [data], the snapshot the sensors read. *)
Record Coordinator : Type := {
  config : pydict;
  session : option Session;
  authenticated : bool;
  data : pyval
}.

(** [EBlocDataUpdateCoordinator(hass, config)]. *)
Definition __init__ (config : pydict) : Coordinator :=
  {| config := config; session := None; authenticated := false; data := PNone |}.

Definition set_session (c : Coordinator) (s : option Session) : Coordinator :=
  {| config := config c; session := s; authenticated := authenticated c; data := data c |}.

Definition set_authenticated (c : Coordinator) (b : bool) : Coordinator :=
  {| config := config c; session := session c; authenticated := b; data := data c |}.

Section Portal.
(** The remote portal behind the transport: it answers a request from
    its own state, or the transport raises. *)
Context {World : Type}.
Context (post : Request -> World -> result Response * World).
Context (K : Const).

(** The state a method runs in: the coordinator object, the portal, and
    the requests sent so far (kept to state what was sent). *)
Record State : Type := {
  self : Coordinator;
  world : World;
  sent : list Request
}.

(** A method: it returns or raises, and leaves a state. *)
Definition M (A : Type) : Type := State -> result A * State.

Definition ret {A} (a : A) : M A := fun st => (Ok a, st).

Definition raise {A} (k : exn_kind) (msg : string) : M A :=
  fun st => (Raise k msg, st).

Definition bind {A B} (m : M A) (f : A -> M B) : M B :=
  fun st =>
    match m st with
    | (inl e, st') => (inl e, st')
    | (inr a, st') => f a st'
    end.

Definition lift {A} (r : result A) : M A := fun st => (r, st).

(** [try: body  except Exception as e: handler(e)]; what the body did
    to the state before it raised stays done. *)
Definition try_except_Exception {A} (body : M A) (handler : exn -> M A) : M A :=
  fun st =>
    match body st with
    | (inl e, st') => handler e st'
    | (inr a, st') => (inr a, st')
    end.

Definition get_self : M Coordinator := fun st => (Ok (self st), st).

Definition put_self (c : Coordinator) : M unit :=
  fun st => (Ok tt, {| self := c; world := world st; sent := sent st |}).

(** [self.config[k]]. *)
Definition config_item (k : string) : M pyval :=
  fun st => (py_getitem (PDict (config (self st))) k, st).

(** [self.session.post(url, data=payload, headers=h)]; without a session
    the attribute lookup on [None] raises. *)
Definition session_post (url : string) (payload : pyval) (h : headers) : M Response :=
  fun st =>
    match session (self st) with
    | None => (Raise AttributeError "NoneType object has no attribute post", st)
    | Some _ =>
        let rq := {| req_url := url; req_data := payload; req_headers := h |} in
        let (r, w) := post rq (world st) in
        (r, {| self := self st; world := w; sent := sent st ++ [rq] |})
    end.
End Portal.

Arguments State : clear implicits.
Arguments M : clear implicits.

Declare Scope method_scope.
Delimit Scope method_scope with method.
Notation "x <- m ;; k" := (bind m (fun x => k))
  (at level 61, m at next level, right associativity) : method_scope.
Notation "m ;;; k" := (bind m (fun _ => k))
  (at level 61, right associativity) : method_scope.

Section Methods.
Context {World : Type}.
Context (post : Request -> World -> result Response * World).
Context (K : Const).

Local Open Scope method_scope.

(** The login request, for the credentials [u] and [p]. *)
Definition login_request (u p : pyval) : Request :=
  {| req_url := URL_LOGIN K;
     req_data := PDict [("pUser", u); ("pPass", p)];
     req_headers := HEADERS_LOGIN K |}.

(** A response that lets the user in: status 200 and the marker in the
    body. *)
Definition welcomes (response : Response) : Prop :=
  status response = 200 /\
  exists body, text response = Ok body /\
               str_contains "Acces online proprietari" body = true.

Definition _authenticate : M World unit :=
  pUser <- config_item "pUser" ;;
  pPass <- config_item "pPass" ;;
  let payload := PDict [("pUser", pUser); ("pPass", pPass)] in
  try_except_Exception
    (response <- session_post post (URL_LOGIN K) payload (HEADERS_LOGIN K) ;;
     if status response =? 200 then
       body <- lift (text response) ;;
       if str_contains "Acces online proprietari" body then
         c <- get_self ;;
         put_self (set_authenticated c true)
       else raise UpdateFailed "Autentificare eșuată."
     else raise UpdateFailed "Autentificare eșuată.")
    (fun e => raise UpdateFailed ("Eroare la autentificare: " ++ exn_str e)).

Definition _fetch_data (url : string) (payload : pyval) : M World pyval :=
  try_except_Exception
    (response <- session_post post url payload (HEADERS_POST K) ;;
     if status response =? 200 then lift (json response) else ret (PDict []))
    (fun e => ret (PDict [])).

Definition _async_update_data : M World pyval :=
  try_except_Exception
    (c <- get_self ;;
     (match session c with
      | None => put_self (set_session c (Some ClientSession))
      | Some _ => ret tt
      end) ;;;
     c <- get_self ;;
     (if authenticated c then ret tt else _authenticate) ;;;
     pIdAsoc <- config_item "pIdAsoc" ;;
     pIdAp <- config_item "pIdAp" ;;
     let initial_payload := PDict [("pIdAsoc", pIdAsoc); ("pIdAp", pIdAp)] in
     lista_luni <- _fetch_data (URL_LISTA_LUNI K) initial_payload ;;
     luna_activa <- lift (_get_luna_activa lista_luni) ;;
     pIdAsoc <- config_item "pIdAsoc" ;;
     pIdAp <- config_item "pIdAp" ;;
     let payload :=
       PDict [("pIdAsoc", pIdAsoc); ("pIdAp", pIdAp); ("pLuna", luna_activa)] in
     home <- _fetch_data (URL_HOME K) payload ;;
     index <- _fetch_data (URL_INDEX K) payload ;;
     receipts <- _fetch_data (URL_RECEIPTS K) payload ;;
     ret (PDict [("home", home); ("index", index); ("receipts", receipts);
                 ("lista_luni", lista_luni); ("luna_activa", luna_activa)]))
    (fun e => raise UpdateFailed ("Eroare la actualizarea datelor: " ++ exn_str e)).

(** The five fields of a snapshot come from one cycle that started in
    [st] and ended in [st']: the month list was fetched after [st], the
    active month was computed from it, and the three datasets were
    fetched next, for that month, one after the other up to [st']. *)
Definition fetched_in_cycle (st st' : State World)
    (lista_luni luna_activa home index receipts : pyval) : Prop :=
  exists pIdAsoc pIdAp st1 st2 st3 st4,
    let payload :=
      PDict [("pIdAsoc", pIdAsoc); ("pIdAp", pIdAp); ("pLuna", luna_activa)] in
    (exists new, sent st1 = sent st ++ new)%list /\
    _fetch_data (URL_LISTA_LUNI K)
      (PDict [("pIdAsoc", pIdAsoc); ("pIdAp", pIdAp)]) st1 = (Ok lista_luni, st2) /\
    _get_luna_activa lista_luni = Ok luna_activa /\
    _fetch_data (URL_HOME K) payload st2 = (Ok home, st3) /\
    _fetch_data (URL_INDEX K) payload st3 = (Ok index, st4) /\
    _fetch_data (URL_RECEIPTS K) payload st4 = (Ok receipts, st').

(** The state in which a cycle logs in: [st] with a session, created
    when there was none. *)
Definition with_session (st : State World) : State World :=
  match session (self st) with
  | Some _ => st
  | None => {| self := set_session (self st) (Some ClientSession);
               world := world st; sent := sent st |}
  end.

(** The methods that act on the coordinator, as one type, to speak of
    any sequence of calls. *)
Inductive operation : Type :=
| Call_authenticate
| Call_fetch_data (url : string) (payload : pyval)
| Call_async_update_data.

(** The state a call leaves, whether it returned or raised. *)
Definition after (op : operation) (st : State World) : State World :=
  match op with
  | Call_authenticate => snd (_authenticate st)
  | Call_fetch_data url payload => snd (_fetch_data url payload st)
  | Call_async_update_data => snd (_async_update_data st)
  end.

Definition after_all (ops : list operation) (st : State World) : State World :=
  fold_left (fun s op => after op s) ops st.
End Methods.

(** ** A scripted portal

    A portal that answers the requests in turn from a fixed list and
    fails to connect once the list is used up; the properties below are
    run against it. *)

Definition scripted_post (rq : Request) (answers : list (result Response))
  : result Response * list (result Response) :=
  match answers with
  | [] => (Raise ClientError "Cannot connect to host", [])
  | a :: rest => (a, rest)
  end.

Definition test_const : Const :=
  {| URL_LOGIN := "https://portal.test/login";
     HEADERS_LOGIN := [("Content-Type", "application/x-www-form-urlencoded")];
     HEADERS_POST := [("Accept", "application/json")];
     URL_HOME := "https://portal.test/home";
     URL_INDEX := "https://portal.test/index";
     URL_RECEIPTS := "https://portal.test/receipts";
     URL_LISTA_LUNI := "https://portal.test/luni" |}.

Definition test_config : pydict :=
  [("pUser", PStr "ana"); ("pPass", PStr "secret");
   ("pIdAsoc", PStr "17"); ("pIdAp", PStr "4")].

Definition page (s : string) : result Response :=
  Ok {| status := 200; text := Ok s;
        json := Raise ClientError "unexpected mimetype: text/html" |}.

Definition document (v : pyval) : result Response :=
  Ok {| status := 200; text := Ok ""; json := Ok v |}.

Definition month (luna open : string) : pyval :=
  PDict [("luna", PStr luna); ("open", PStr open)].

Definition start_state (c : Coordinator) (answers : list (result Response))
  : State (list (result Response)) :=
  {| self := c; world := answers; sent := [] |}.

(** A runtime for the scripted runs: [str()] of a [str] is itself, and
    the literals read are plain digit strings. *)
Definition test_runtime : Runtime :=
  {| py_str := fun v => match v with PStr s => s | _ => type_name v end;
     int_of_str := fun s => match s with "123456" => Some 123456 | _ => None end;
     float_of_str := fun s => match s with "1234" => Some 1234%float | _ => None end |}.

Definition months_2024 : pydict :=
  [("1", month "2024-04" "1"); ("2", month "2024-03" "0");
   ("3", month "2024-02" "1"); ("4", month "2024-01" "0")].


(** A coordinator that has a session and has not logged in yet, and one
    that has. *)
Definition logged_out : Coordinator :=
  set_session (__init__ test_config) (Some ClientSession).

Definition logged_in : Coordinator := set_authenticated logged_out true.

Definition welcome_page : result Response :=
  page "<title>Acces online proprietari</title>".

(** A raw value [float()] rejects: [None], a list, a dict, or a text the
    runtime does not read as a number. *)
Definition non_numeric (rt : Runtime) (raw : pyval) : Prop :=
  match raw with
  | PNone | PList _ | PDict _ => True
  | PStr s => float_of_str rt s = None
  | PBool _ | PInt _ | PFloat _ => False
  end.

(** The answers of a portal whose home summary has a null ['datorie'] and
    whose only receipt has a null ['suma'], and the snapshot a cycle
    builds from them. *)
Definition null_amounts_answers : list (result Response) :=
  [document (PDict [("1", month "2024-03" "1")]);
   document (PDict [("1", PDict [("cod_client", PStr "C-17"); ("datorie", PNone)])]);
   document (PDict []);
   document (PDict [("1", PDict [("numar", PStr "88"); ("suma", PNone)])])].

Definition null_amounts_snapshot : pyval :=
  PDict [("home", PDict [("1", PDict [("cod_client", PStr "C-17"); ("datorie", PNone)])]);
         ("index", PDict []);
         ("receipts", PDict [("1", PDict [("numar", PStr "88"); ("suma", PNone)])]);
         ("lista_luni", PDict [("1", month "2024-03" "1")]);
         ("luna_activa", PStr "2024-03")].

(** ** Further notions: requests, answers, shapes *)

(** The request for the month list and the request for a dataset of a
    month, as a cycle builds them from the configured ids. *)
Definition lista_request (K : Const) (pIdAsoc pIdAp : pyval) : Request :=
  {| req_url := URL_LISTA_LUNI K;
     req_data := PDict [("pIdAsoc", pIdAsoc); ("pIdAp", pIdAp)];
     req_headers := HEADERS_POST K |}.

Definition dataset_request (K : Const) (url : string) (pIdAsoc pIdAp luna : pyval)
  : Request :=
  {| req_url := url;
     req_data := PDict [("pIdAsoc", pIdAsoc); ("pIdAp", pIdAp); ("pLuna", luna)];
     req_headers := HEADERS_POST K |}.

(** An answer that brings no months: the transport raised, the status is
    not 200, the body does not decode, or it decodes to an empty object. *)
Definition no_months (r : result Response) : Prop :=
  match r with
  | inl _ => True
  | inr response =>
      status response <> 200 \/
      (exists e, json response = inl e) \/
      json response = Ok (PDict [])
  end.

(** A snapshot in which ["home"] and its item ["1"] are dicts where they
    are present. *)
Definition home_shape (data : pyval) : Prop :=
  exists d, data = PDict d /\
    (dict_get d "home" = None \/
     exists h, dict_get d "home" = Some (PDict h) /\
       (dict_get h "1" = None \/ exists o, dict_get h "1" = Some (PDict o))).

(** What the home summary holds for a field of a well-shaped snapshot,
    [None] when any level is missing. *)
Definition home_value (data : pyval) (field : string) : pyval :=
  match data with
  | PDict d =>
      match dict_get d "home" with
      | Some (PDict h) =>
          match dict_get h "1" with
          | Some (PDict o) =>
              match dict_get o field with
              | Some v => v
              | None => PNone
              end
          | _ => PNone
          end
      | _ => PNone
      end
  | _ => PNone
  end.

(** The sensor classes, in the order [async_setup_entry] registers them,
    with the class attributes each one sets. *)
Inductive sensor_class : Type :=
| ClientSensor_ | ApaReceSensor_ | ApaCaldaSensor_ | CalduraSensor_
| CurentSensor_ | PlatiSensor_ | ApartamentSensor_ | PersoaneSensor_
| RestantaSensor_ | UltimaZiSensor_ | ContorTrimisSensor_
| IncepereCitireSensor_ | IncheiereCitireSensor_ | LunaVecheSensor_
| LunaCurentaSensor_ | NivelRestantaSensor_.

Definition sensors : list sensor_class :=
  [ClientSensor_; ApaReceSensor_; ApaCaldaSensor_; CalduraSensor_;
   CurentSensor_; PlatiSensor_; ApartamentSensor_; PersoaneSensor_;
   RestantaSensor_; UltimaZiSensor_; ContorTrimisSensor_;
   IncepereCitireSensor_; IncheiereCitireSensor_; LunaVecheSensor_;
   LunaCurentaSensor_; NivelRestantaSensor_].

Definition _attr_name (c : sensor_class) : string :=
  match c with
  | ClientSensor_ => "Date client"
  | ApaReceSensor_ => "Apă rece"
  | ApaCaldaSensor_ => "Apă caldă"
  | CalduraSensor_ => "Căldură"
  | CurentSensor_ => "Curent"
  | PlatiSensor_ => "Plăți"
  | ApartamentSensor_ => "Apartament"
  | PersoaneSensor_ => "Persoane"
  | RestantaSensor_ => "Restanță"
  | UltimaZiSensor_ => "Ultima zi plată"
  | ContorTrimisSensor_ => "Contor trimis"
  | IncepereCitireSensor_ => "Începere citire"
  | IncheiereCitireSensor_ => "Încheiere citire"
  | LunaVecheSensor_ => "Luna veche"
  | LunaCurentaSensor_ => "Luna curentă"
  | NivelRestantaSensor_ => "Nivel restanță"
  end.

(** The part of [_attr_unique_id] after [f"{DOMAIN}"]. *)
Definition unique_id_suffix (c : sensor_class) : string :=
  match c with
  | ClientSensor_ => "_client"
  | ApaReceSensor_ => "_apa_rece"
  | ApaCaldaSensor_ => "_apa_calda"
  | CalduraSensor_ => "_caldura"
  | CurentSensor_ => "_curent"
  | PlatiSensor_ => "_plati"
  | ApartamentSensor_ => "_apartament"
  | PersoaneSensor_ => "_persoane"
  | RestantaSensor_ => "_restanta"
  | UltimaZiSensor_ => "_ultima_zi"
  | ContorTrimisSensor_ => "_contor_trimis"
  | IncepereCitireSensor_ => "_citire_start"
  | IncheiereCitireSensor_ => "_citire_end"
  | LunaVecheSensor_ => "_luna_veche"
  | LunaCurentaSensor_ => "_luna_curenta"
  | NivelRestantaSensor_ => "_nivel_restanta"
  end.

Definition _attr_unique_id (DOMAIN : string) (c : sensor_class) : string :=
  DOMAIN ++ unique_id_suffix c.

Definition _attr_native_unit_of_measurement (c : sensor_class) : option string :=
  match c with
  | ApaReceSensor_ | ApaCaldaSensor_ => Some "m³"
  | CalduraSensor_ | CurentSensor_ => Some "kWh"
  | RestantaSensor_ => Some "RON"
  | _ => None
  end.

(** [native_value] of each class. *)
Definition native_value_of (rt : Runtime) (c : sensor_class) (data : pyval)
  : result pyval :=
  match c with
  | ClientSensor_ => ClientSensor.native_value data
  | ApaReceSensor_ => ApaReceSensor.native_value rt data
  | ApaCaldaSensor_ => ApaCaldaSensor.native_value rt data
  | CalduraSensor_ => CalduraSensor.native_value rt data
  | CurentSensor_ => CurentSensor.native_value rt data
  | PlatiSensor_ => PlatiSensor.native_value data
  | ApartamentSensor_ => ApartamentSensor.native_value data
  | PersoaneSensor_ => PersoaneSensor.native_value data
  | RestantaSensor_ => RestantaSensor.native_value rt data
  | UltimaZiSensor_ => UltimaZiSensor.native_value data
  | ContorTrimisSensor_ => ContorTrimisSensor.native_value data
  | IncepereCitireSensor_ => IncepereCitireSensor.native_value data
  | IncheiereCitireSensor_ => IncheiereCitireSensor.native_value data
  | LunaVecheSensor_ => LunaVecheSensor.native_value data
  | LunaCurentaSensor_ => LunaCurentaSensor.native_value data
  | NivelRestantaSensor_ => NivelRestantaSensor.native_value data
  end.

(** A portal whose first answer is the owners' page and whose second
    brings two months, the first of them closed; nothing after that. *)
Definition two_months : pyval :=
  PDict [("1", month "2024-03" "0"); ("2", month "2024-02" "0")].

Definition months_only_answers : list (result Response) :=
  [welcome_page; document two_months].

(** A portal that cannot be reached. *)
Definition unreachable_post (rq : Request) (w : unit) : result Response * unit :=
  (Raise ClientError "Cannot connect to host", w).

(** A read that goes through ["home"] and ["1"] to a field: on a
    well-shaped snapshot it returns what is there, [None] when something
    is missing, and on any other snapshot it raises [AttributeError]. *)
Definition reads_home (read : pyval -> result pyval) (field : string) : Prop :=
  forall data,
    (home_shape data -> read data = Ok (home_value data field)) /\
    (~ home_shape data -> raises (read data) AttributeError).

(** How a meter read can end. *)
Definition meter_outcome (r : result pyval) : Prop :=
  (exists y, r = Ok (PFloat y)) \/ r = Ok PNone \/
  raises r AttributeError \/ raises r OverflowError.

(** The key of the [i]-th receipt line. *)
Definition receipt_key (i : Z) : string := "Chitanța " ++ digits_of i.

(** ** Notions for the meter reads *)

(** A raw value that is not a JSON number: null, a boolean, a text, a
    list or a dict. *)
Definition not_json_number (raw : pyval) : Prop :=
  match raw with
  | PInt _ | PFloat _ => False
  | _ => True
  end.

(** [D] is the integer nearest to [m * 2^e * 10^ndigits], and the even
    one of the two when that number lies half way between them. *)
Definition nearest_scaled (m : positive) (e : Z) (ndigits : nat) (D : Z) : Prop :=
  let unit := 2 ^ Z.max 0 (- e) in
  let exact := Zpos m * 10 ^ Z.of_nat ndigits * 2 ^ Z.max 0 e in
  0 <= D /\
  2 * Z.abs (D * unit - exact) <= unit /\
  (2 * Z.abs (D * unit - exact) = unit -> Z.even D = true).

(** [y] is [z] rounded to [ndigits] decimals: for a finite non-zero
    [z = (-1)^s * m * 2^e] it is the float nearest to [D / 10^ndigits],
    with the sign of [z], where [D] is the integer nearest to
    [m * 2^e * 10^ndigits]; zeros, infinities and NaN are kept. *)
Definition rounded_to (ndigits : nat) (z y : float) : Prop :=
  match Prim2SF z with
  | S754_finite s m e =>
      exists D,
        nearest_scaled m e ndigits D /\
        y = SF2Prim
              match D with
              | Zpos d =>
                  SFdiv prec emax (S754_finite s d 0) (Z2SF (10 ^ Z.of_nat ndigits))
              | _ => S754_zero s
              end
  | _ => y = z
  end.

(** ** Notions the properties are stated with *)

Section Relations.
Context {World : Type}.

(** Whatever a method does, returning or raising, the state it leaves
    is related to the one it started from. *)
Definition preserves {A} (R : State World -> State World -> Prop)
    (m : M World A) : Prop :=
  forall st, R st (snd (m st)).

(** The snapshot the sensors read is still the same one. *)
Definition keeps_data (st st' : State World) : Prop :=
  data (self st') = data (self st).

Definition stays_authenticated (st st' : State World) : Prop :=
  authenticated (self st) = true -> authenticated (self st') = true.

(** A request for one of the four datasets. *)
Definition data_request (K : Const) (rq : Request) : Prop :=
  req_headers rq = HEADERS_POST K /\
  In (req_url rq) [URL_LISTA_LUNI K; URL_HOME K; URL_INDEX K; URL_RECEIPTS K] /\
  exists a b rest, req_data rq = PDict (("pIdAsoc", a) :: ("pIdAp", b) :: rest).

(** From an authenticated state: still authenticated, and nothing was
    sent but requests for datasets. *)
Definition sends_data_only (K : Const) (st st' : State World) : Prop :=
  authenticated (self st) = true ->
  authenticated (self st') = true /\
  exists new, sent st' = (sent st ++ new)%list /\ Forall (data_request K) new.
End Relations.

(** * Properties *)

Local Open Scope list_scope.

(** ** Dicts *)

Lemma dict_set_fresh (d : pydict) (k : string) (v : pyval) :
  ~ In k (dict_keys d) -> dict_set d k v = (d ++ [(k, v)])%list.
Proof.
  induction d as [|[k' v'] d IH]; intros Hk; simpl; [reflexivity|].
  destruct (String.eqb_spec k' k) as [->|Hne].
  - exfalso. apply Hk. now left.
  - rewrite IH; [reflexivity|]. intros Hin. apply Hk. now right.
Qed.

Lemma dict_get_in (d : pydict) (k : string) (v : pyval) :
  dict_wf d -> In (k, v) d -> dict_get d k = Some v.
Proof.
  unfold dict_wf.
  induction d as [|[k' v'] d IH]; intros Hnd Hin; [contradiction|].
  simpl in *. inversion Hnd as [|? ? Hnotin Hnd']; subst.
  destruct Hin as [Heq|Hin].
  - inversion Heq; subst. now rewrite String.eqb_refl.
  - destruct (String.eqb_spec k' k) as [->|Hne].
    + exfalso. apply Hnotin. apply (in_map fst) in Hin. exact Hin.
    + now apply IH.
Qed.

Lemma dict_comprehension_items (d l acc : pydict) :
  (forall k v, In (k, v) l -> dict_get d k = Some v) ->
  NoDup (dict_keys (acc ++ l)) ->
  dict_comprehension (PDict d) (dict_keys l) acc = Ok (acc ++ l)%list.
Proof.
  revert acc.
  induction l as [|[k v] l IH]; intros acc Hget Hnd; simpl.
  - now rewrite app_nil_r.
  - rewrite (Hget k v) by now left. simpl.
    assert (Hfresh : ~ In k (dict_keys acc)).
    { unfold dict_keys in *. rewrite map_app in Hnd. simpl in Hnd.
      apply NoDup_remove_2 in Hnd. intros Hin. apply Hnd.
      apply in_or_app. now left. }
    rewrite (dict_set_fresh _ _ _ Hfresh).
    replace (acc ++ (k, v) :: l)%list with ((acc ++ [(k, v)]) ++ l)%list
      by now rewrite <- app_assoc.
    apply IH.
    + intros k0 v0 Hin. apply Hget. now right.
    + now rewrite <- app_assoc.
Qed.

(** Line 41 keeps the first three items of a dict as they are. *)
Lemma first_three_months_items (d : pydict) :
  dict_wf d ->
  dict_comprehension (PDict d) (firstn 3 (dict_keys d)) [] = Ok (firstn 3 d).
Proof.
  intros Hwf. unfold dict_keys. rewrite firstn_map.
  apply (dict_comprehension_items d (firstn 3 d) []).
  - intros k v Hin. apply dict_get_in; [exact Hwf|].
    rewrite <- (firstn_skipn 3 d). apply in_or_app. now left.
  - simpl. unfold dict_wf, dict_keys in *.
    rewrite <- (firstn_skipn 3 d), map_app in Hwf.
    exact (NoDup_app_remove_r _ _ Hwf).
Qed.

Lemma get_luna_activa_first_three (d : pydict) :
  dict_wf d ->
  _get_luna_activa (PDict d) = active_of_first_three (firstn 3 d).
Proof.
  intros Hwf.
  change (_get_luna_activa (PDict d))
    with (rbind (dict_comprehension (PDict d) (firstn 3 (dict_keys d)) [])
                active_of_first_three).
  now rewrite (first_three_months_items d Hwf).
Qed.

(** ** The active month *)

Lemma month_entry_luna (e : pyval) :
  month_entry e -> py_getitem e "luna" = Ok (entry_luna e).
Proof.
  intros [[v Hv] _]. unfold entry_luna. now rewrite Hv.
Qed.

Lemma next_closed_luna_find (items : pydict) :
  Forall month_entry (dict_values items) ->
  next_closed_luna items =
    Ok (match find entry_closed (dict_values items) with
        | Some e => entry_luna e
        | None => PNone
        end).
Proof.
  induction items as [|[k e] items IH]; intros Hall; simpl; [reflexivity|].
  inversion Hall as [|? ? He Hrest]; subst.
  unfold entry_closed at 1.
  destruct He as [Hl [o Ho]]. rewrite Ho. simpl.
  destruct (py_eq_str o "0").
  - apply month_entry_luna. split; [exact Hl | now exists o].
  - now apply IH.
Qed.

Lemma active_of_first_three_month_entries (items : pydict) :
  items <> [] ->
  Forall month_entry (dict_values items) ->
  active_of_first_three items =
    Ok (match find entry_closed (dict_values items) with
        | Some e =>
            if truthy (entry_luna e) then entry_luna e
            else entry_luna (hd PNone (dict_values items))
        | None => entry_luna (hd PNone (dict_values items))
        end).
Proof.
  intros Hne Hall. unfold active_of_first_three.
  rewrite (next_closed_luna_find items Hall). simpl.
  destruct items as [|[k e] items]; [contradiction|].
  assert (Hfirst : py_getitem e "luna" = Ok (entry_luna e)).
  { apply month_entry_luna. now inversion Hall. }
  unfold py_or. cbn [dict_values map snd hd list_first rbind Ok].
  destruct (find entry_closed (e :: map snd items)) as [c|].
  - destruct (truthy (entry_luna c)); [reflexivity|exact Hfirst].
  - cbn [truthy]. exact Hfirst.
Qed.

Lemma firstn_firstn_3 {A} (l : list A) : firstn 3 (firstn 3 l) = firstn 3 l.
Proof. rewrite firstn_firstn. reflexivity. Qed.

Lemma hd_firstn_3 {A} (a : A) (l : list A) : hd a (firstn 3 l) = hd a l.
Proof. now destruct l. Qed.

Lemma get_luna_activa_active_month (d : pydict) :
  dict_wf d -> d <> [] ->
  Forall month_entry (firstn 3 (dict_values d)) ->
  _get_luna_activa (PDict d) = Ok (active_month (dict_values d)).
Proof.
  intros Hwf Hne Hall.
  rewrite (get_luna_activa_first_three d Hwf).
  unfold dict_values in *. rewrite firstn_map in Hall.
  rewrite active_of_first_three_month_entries.
  - unfold active_month, dict_values.
    rewrite <- firstn_map, hd_firstn_3. reflexivity.
  - destruct d; [contradiction|discriminate].
  - exact Hall.
Qed.

Example luna_activa_second_closed :
  _get_luna_activa
    (PDict [("1", month "2024-03" "1"); ("2", month "2024-02" "0");
            ("3", month "2024-01" "0")])
  = Ok (PStr "2024-02").
Proof. reflexivity. Qed.

Example luna_activa_none_closed :
  _get_luna_activa
    (PDict [("1", month "2024-03" "1"); ("2", month "2024-02" "1")])
  = Ok (PStr "2024-03").
Proof. reflexivity. Qed.

Example luna_activa_fourth_closed_ignored :
  _get_luna_activa
    (PDict [("1", month "2024-04" "1"); ("2", month "2024-03" "1");
            ("3", month "2024-02" "1"); ("4", month "2024-01" "0")])
  = Ok (PStr "2024-04").
Proof. reflexivity. Qed.

Lemma month_is_entry (luna open : string) : month_entry (month luna open).
Proof.
  split; [exists (PStr luna) | exists (PStr open)]; reflexivity.
Qed.

(** C1, as stated, does not hold: in the month list
    [{"1": {luna: "2024-03", open: "1"}, "2": {luna: "", open: "0"}}] the
    first closed entry among the first three is the second one, whose
    month is the empty string, and [_get_luna_activa] returns
    ["2024-03"], the month of the first entry, not that month. *)
Lemma get_luna_activa_stated_fails :
  ~ (forall d : pydict,
        dict_wf d -> d <> [] ->
        Forall month_entry (firstn 3 (dict_values d)) ->
        _get_luna_activa (PDict d) = Ok (stated_active_month (dict_values d))).
Proof.
  intros H.
  specialize (H [("1", month "2024-03" "1"); ("2", month "" "0")]).
  assert (Hwf : dict_wf [("1", month "2024-03" "1"); ("2", month "" "0")]).
  { unfold dict_wf; simpl. repeat constructor; simpl; intuition discriminate. }
  specialize (H Hwf ltac:(discriminate)).
  assert (Hall : Forall month_entry
            (firstn 3 (dict_values [("1", month "2024-03" "1"); ("2", month "" "0")]))).
  { simpl. repeat constructor; apply month_is_entry. }
  specialize (H Hall). vm_compute in H. discriminate H.
Qed.

(** C1 (amended): for every non-empty month list whose first three
    entries carry ['luna'] and ['open'], [_get_luna_activa] looks at the
    first three entries only, in insertion order: it returns the month of
    the first of them whose ['open'] is the string ["0"] when that month
    is truthy, and the month of the very first entry when none of the
    three is closed; a list that agrees on its first three entries gives
    the same result, whatever comes after them. *)
Theorem get_luna_activa_first_closed_of_three (d : pydict) :
  dict_wf d -> d <> [] ->
  Forall month_entry (firstn 3 (dict_values d)) ->
  (forall e, find entry_closed (firstn 3 (dict_values d)) = Some e ->
             truthy (entry_luna e) = true ->
             _get_luna_activa (PDict d) = Ok (entry_luna e)) /\
  (find entry_closed (firstn 3 (dict_values d)) = None ->
   _get_luna_activa (PDict d) = Ok (entry_luna (hd PNone (dict_values d)))) /\
  (forall d', dict_wf d' -> firstn 3 d' = firstn 3 d ->
              _get_luna_activa (PDict d') = _get_luna_activa (PDict d)).
Proof.
  intros Hwf Hne Hall.
  pose proof (get_luna_activa_active_month d Hwf Hne Hall) as Hrun.
  unfold active_month in Hrun.
  repeat split.
  - intros e Hfind Htruthy. now rewrite Hfind, Htruthy in Hrun.
  - intros Hfind. now rewrite Hfind in Hrun.
  - intros d' Hwf' Hsame.
    rewrite (get_luna_activa_first_three d' Hwf'), Hsame.
    symmetry. now apply get_luna_activa_first_three.
Qed.

Lemma months_2024_wf : dict_wf months_2024.
Proof.
  unfold dict_wf; simpl. repeat constructor; simpl; intuition discriminate.
Qed.

(** On a list of four months whose second is the first closed one, and
    whose fourth is closed too, the active month is the second. *)
Lemma get_luna_activa_first_closed_of_three_witness :
  _get_luna_activa (PDict months_2024) = Ok (PStr "2024-03").
Proof.
  refine (proj1 (get_luna_activa_first_closed_of_three months_2024
                   months_2024_wf _ _) (month "2024-03" "0") _ _).
  - discriminate.
  - simpl. repeat constructor; apply month_is_entry.
  - reflexivity.
  - reflexivity.
Defined.




(** C5: on the empty month list [_get_luna_activa] does not return an
    absent value: [list(first_three_months.values())[0]] raises
    [IndexError]. *)
Theorem get_luna_activa_empty_raises :
  _get_luna_activa (PDict []) = Raise IndexError "list index out of range" /\
  ~ returns (_get_luna_activa (PDict [])).
Proof.
  split; [reflexivity|].
  intros [v Hv]. discriminate Hv.
Qed.

(** ** Fetching one dataset *)

Ltac run_method :=
  unfold try_except_Exception, bind, session_post, lift, ret, raise,
    get_self, put_self, config_item in *; simpl in *.

Section FetchData.
Context {World : Type}.
Context (post : Request -> World -> result Response * World).
Context (K : Const).

(** What [_fetch_data] does, by the answer of the portal. *)
Lemma fetch_data_cases (url : string) (payload : pyval) (st : State World) :
  exists v st',
    _fetch_data post K url payload st = (Ok v, st') /\
    self st' = self st /\
    (session (self st) = None -> v = PDict [] /\ st' = st) /\
    (session (self st) <> None ->
     let rq := {| req_url := url; req_data := payload;
                  req_headers := HEADERS_POST K |} in
     world st' = snd (post rq (world st)) /\
     sent st' = sent st ++ [rq] /\
     v = match fst (post rq (world st)) with
         | inl _ => PDict []
         | inr response =>
             if status response =? 200 then
               match json response with
               | inl _ => PDict []
               | inr body => body
               end
             else PDict []
         end).
Proof.
  unfold _fetch_data. run_method.
  destruct (session (self st)) as [s|] eqn:Hs.
  - destruct (post _ (world st)) as [[e|response] w] eqn:Hpost; simpl;
      [| destruct (status response =? 200) eqn:Hstatus;
         [destruct (json response) as [e|body] eqn:Hjson|] ];
      (eexists; eexists; split; [reflexivity|]; split; [reflexivity|];
       split; [discriminate|]; intros _; repeat split; reflexivity).
  - exists (PDict []), st. split; [reflexivity|]. split; [reflexivity|].
    split; [intros _; now split | intros Hne; now contradiction Hne].
Qed.

(** C2: for every URL and payload [_fetch_data] returns and never
    raises: the JSON-decoded body when the response has status 200,
    and the empty dict when the status is another one, when decoding
    the body raises, or when the transport raises. *)
Theorem fetch_data_total (url : string) (payload : pyval) (st : State World) :
  let rq := {| req_url := url; req_data := payload;
               req_headers := HEADERS_POST K |} in
  exists v st',
    _fetch_data post K url payload st = (Ok v, st') /\
    (session (self st) <> None ->
     (forall response w body,
         post rq (world st) = (Ok response, w) ->
         status response = 200 -> json response = Ok body -> v = body) /\
     (forall response w,
         post rq (world st) = (Ok response, w) ->
         status response <> 200 -> v = PDict []) /\
     (forall response w e,
         post rq (world st) = (Ok response, w) ->
         json response = inl e -> v = PDict []) /\
     (forall e w, post rq (world st) = (inl e, w) -> v = PDict [])).
Proof.
  intros rq.
  destruct (fetch_data_cases url payload st) as (v & st' & Hrun & _ & _ & Hsome).
  exists v, st'. split; [exact Hrun|].
  intros Hs. destruct (Hsome Hs) as (_ & _ & Hv). fold rq in Hv.
  repeat split.
  - intros response w body Hpost Hstatus Hjson.
    rewrite Hpost in Hv. simpl in Hv.
    now rewrite Hstatus, Hjson in Hv.
  - intros response w Hpost Hstatus.
    rewrite Hpost in Hv. simpl in Hv.
    destruct (Z.eqb_spec (status response) 200); [contradiction|exact Hv].
  - intros response w e Hpost Hjson.
    rewrite Hpost in Hv. simpl in Hv. rewrite Hjson in Hv.
    now destruct (status response =? 200).
  - intros e w Hpost. now rewrite Hpost in Hv.
Qed.

(** [_fetch_data] never touches the coordinator object. *)
Lemma fetch_data_self (url : string) (payload : pyval) (st : State World) :
  self (snd (_fetch_data post K url payload st)) = self st.
Proof.
  destruct (fetch_data_cases url payload st) as (v & st' & Hrun & Hself & _).
  now rewrite Hrun.
Qed.
End FetchData.

(** ** Logging in *)

Section Authenticate.
Context {World : Type}.
Context (post : Request -> World -> result Response * World).
Context (K : Const).

(** [_authenticate] either returns with the flag set, or raises and
    leaves the coordinator object as it was. *)
Lemma authenticate_outcome (st : State World) :
  exists r st',
    _authenticate post K st = (r, st') /\
    ((r = Ok tt /\ self st' = set_authenticated (self st) true) \/
     ((raises r UpdateFailed \/ raises r KeyError) /\ self st' = self st)).
Proof.
  unfold _authenticate. run_method.
  destruct (dict_get (config (self st)) "pUser") as [u|];
    [|eexists; eexists; split; [reflexivity|]; right; split;
      [right; eexists; reflexivity | reflexivity]].
  destruct (dict_get (config (self st)) "pPass") as [p|];
    [|eexists; eexists; split; [reflexivity|]; right; split;
      [right; eexists; reflexivity | reflexivity]].
  simpl.
  destruct (session (self st)) as [s|];
    [|eexists; eexists; split; [reflexivity|]; right; split;
      [left; eexists; reflexivity | reflexivity]].
  destruct (post _ (world st)) as [[e|response] w]; simpl;
    [eexists; eexists; split; [reflexivity|]; right; split;
      [left; eexists; reflexivity | reflexivity] |].
  destruct (status response =? 200);
    [|eexists; eexists; split; [reflexivity|]; right; split;
      [left; eexists; reflexivity | reflexivity]].
  destruct (text response) as [e|body]; simpl;
    [eexists; eexists; split; [reflexivity|]; right; split;
      [left; eexists; reflexivity | reflexivity] |].
  destruct (str_contains _ body); simpl;
    eexists; eexists; (split; [reflexivity|]).
  - left. split; reflexivity.
  - right. split; [left; eexists; reflexivity | reflexivity].
Qed.

(** With both credentials configured, the only way out by an exception
    is [UpdateFailed], and the call returns exactly when a session
    exists and the portal welcomes the login request. *)
Lemma authenticate_accepts (st : State World) (u p : pyval) :
  dict_get (config (self st)) "pUser" = Some u ->
  dict_get (config (self st)) "pPass" = Some p ->
  exists r st',
    _authenticate post K st = (r, st') /\
    (r = Ok tt \/ raises r UpdateFailed) /\
    (r = Ok tt <->
     session (self st) <> None /\
     exists response, fst (post (login_request K u p) (world st)) = Ok response /\
                      welcomes response).
Proof.
  intros Hu Hp. unfold _authenticate, welcomes, login_request. run_method.
  rewrite Hu, Hp. simpl.
  destruct (session (self st)) as [s|].
  2:{ eexists; eexists; split; [reflexivity|]. split.
      - right; eexists; reflexivity.
      - split; [discriminate | intros [Hne _]; now contradiction Hne]. }
  destruct (post _ (world st)) as [[e|response] w] eqn:Hpost; simpl.
  { eexists; eexists; split; [reflexivity|]. split.
    - right; eexists; reflexivity.
    - split; [discriminate | intros [_ (r & Hr & _)]; discriminate Hr]. }
  destruct (Z.eqb_spec (status response) 200) as [Hstatus|Hstatus].
  2:{ eexists; eexists; split; [reflexivity|]. split.
      - right; eexists; reflexivity.
      - split; [discriminate|].
        intros [_ (r & Hr & Hs & _)]. inversion Hr; subst. contradiction. }
  destruct (text response) as [e|body] eqn:Htext; simpl.
  { eexists; eexists; split; [reflexivity|]. split.
    - right; eexists; reflexivity.
    - split; [discriminate|].
      intros [_ (r & Hr & _ & b & Hb & _)]. inversion Hr; subst.
      rewrite Htext in Hb. discriminate Hb. }
  destruct (str_contains _ body) eqn:Hmark; simpl;
    eexists; eexists; (split; [reflexivity|]); split.
  - now left.
  - split; [intros _ | reflexivity].
    split; [discriminate|]. exists response. repeat split; try assumption.
    exists body. now split.
  - right; eexists; reflexivity.
  - split; [discriminate|].
    intros [_ (r & Hr & _ & b & Hb & Hc)]. inversion Hr; subst.
    rewrite Htext in Hb. inversion Hb; subst. rewrite Hmark in Hc.
    discriminate Hc.
Qed.
End Authenticate.

(** ** What a refresh cycle preserves *)

Section Preservation.
Context {World : Type}.
Variable R : State World -> State World -> Prop.
Hypothesis R_refl : forall st, R st st.
Hypothesis R_trans : forall a b c, R a b -> R b c -> R a c.

Lemma preserves_ret {A} (a : A) : preserves R (ret a).
Proof. intros st. apply R_refl. Qed.

Lemma preserves_raise {A} (k : exn_kind) (msg : string) :
  preserves R (@raise World A k msg).
Proof. intros st. apply R_refl. Qed.

Lemma preserves_lift {A} (r : result A) : preserves R (lift r).
Proof. intros st. apply R_refl. Qed.

Lemma preserves_config_item (k : string) : preserves R (config_item k).
Proof. intros st. apply R_refl. Qed.

Lemma preserves_bind {A B} (m : M World A) (f : A -> M World B) :
  preserves R m -> (forall a, preserves R (f a)) -> preserves R (bind m f).
Proof.
  intros Hm Hf st. unfold bind.
  specialize (Hm st). destruct (m st) as [[e|a] st1]; simpl in *.
  - exact Hm.
  - eapply R_trans; [exact Hm | apply Hf].
Qed.

(** After [get_self] the continuation runs on the object it was given. *)
Lemma preserves_bind_get_self {B} (f : Coordinator -> M World B) :
  (forall st, R st (snd (f (self st) st))) -> preserves R (bind get_self f).
Proof. intros Hf st. apply Hf. Qed.

Lemma preserves_get_self : preserves R get_self.
Proof. intros st. apply R_refl. Qed.

(** [bind] from one state: the first method is followed from that state
    only, the rest from wherever it leaves. *)
Lemma preserves_bind_at {A B} (m : M World A) (f : A -> M World B)
    (st : State World) :
  R st (snd (m st)) -> (forall a, preserves R (f a)) -> R st (snd (bind m f st)).
Proof.
  intros Hm Hf. unfold bind.
  destruct (m st) as [[e|a] st1]; simpl in *.
  - exact Hm.
  - eapply R_trans; [exact Hm | apply Hf].
Qed.

Lemma preserves_try {A} (body : M World A) (handler : exn -> M World A) :
  preserves R body -> (forall e, preserves R (handler e)) ->
  preserves R (try_except_Exception body handler).
Proof.
  intros Hb Hh st. unfold try_except_Exception.
  specialize (Hb st). destruct (body st) as [[e|a] st1]; simpl in *.
  - eapply R_trans; [exact Hb | apply Hh].
  - exact Hb.
Qed.
End Preservation.

Lemma keeps_data_refl {World} (st : State World) : keeps_data st st.
Proof. reflexivity. Qed.

Lemma keeps_data_trans {World} (a b c : State World) :
  keeps_data a b -> keeps_data b c -> keeps_data a c.
Proof. unfold keeps_data. congruence. Qed.

Lemma stays_authenticated_refl {World} (st : State World) :
  stays_authenticated st st.
Proof. intros H. exact H. Qed.

Lemma stays_authenticated_trans {World} (a b c : State World) :
  stays_authenticated a b -> stays_authenticated b c -> stays_authenticated a c.
Proof. unfold stays_authenticated. auto. Qed.

Lemma sends_data_only_refl {World} (K : Const) (st : State World) :
  sends_data_only K st st.
Proof.
  intros H. split; [exact H|]. exists []. split; [now rewrite app_nil_r | constructor].
Qed.

Lemma sends_data_only_trans {World} (K : Const) (a b c : State World) :
  sends_data_only K a b -> sends_data_only K b c -> sends_data_only K a c.
Proof.
  intros Hab Hbc Ha.
  destruct (Hab Ha) as [Hb (n1 & Hs1 & Hf1)].
  destruct (Hbc Hb) as [Hc (n2 & Hs2 & Hf2)].
  split; [exact Hc|]. exists (n1 ++ n2). split.
  - now rewrite Hs2, Hs1, app_assoc.
  - apply Forall_app. now split.
Qed.

Lemma data_request_not_login (K : Const) (rq : Request) :
  data_request K rq -> forall u p, rq <> login_request K u p.
Proof.
  intros (_ & _ & a & b & rest & Hdata) u p ->.
  discriminate Hdata.
Qed.

Section Refresh.
Context {World : Type}.
Context (post : Request -> World -> result Response * World).
Context (K : Const).

(** A relation between states that the pieces of a cycle preserve is
    preserved by the cycle, however it ends. *)
Lemma update_preserves (R : State World -> State World -> Prop) :
  (forall st, R st st) ->
  (forall a b c, R a b -> R b c -> R a c) ->
  (forall st, R st (snd (put_self (set_session (self st) (Some ClientSession)) st))) ->
  (forall st, authenticated (self st) = false ->
              R st (snd (_authenticate post K st))) ->
  (forall url a b rest,
      In url [URL_LISTA_LUNI K; URL_HOME K; URL_INDEX K; URL_RECEIPTS K] ->
      preserves R (_fetch_data post K url
                     (PDict (("pIdAsoc", a) :: ("pIdAp", b) :: rest)))) ->
  preserves R (_async_update_data post K).
Proof.
  intros R_refl R_trans Hsession Hauth Hfetch.
  pose proof (fun k => preserves_config_item R R_refl k) as Hconfig.
  unfold _async_update_data.
  apply (preserves_try R R_trans);
    [|intros e; apply (preserves_raise R R_refl)].
  apply preserves_bind_get_self. intros st.
  apply (preserves_bind_at R R_trans).
  { destruct (session (self st)); [apply R_refl | apply Hsession]. }
  intros _.
  apply preserves_bind_get_self. intros st1.
  apply (preserves_bind_at R R_trans).
  { destruct (authenticated (self st1)) eqn:Ha; [apply R_refl | now apply Hauth]. }
  intros _.
  apply (preserves_bind R R_trans); [apply Hconfig|]. intros pIdAsoc.
  apply (preserves_bind R R_trans); [apply Hconfig|]. intros pIdAp.
  apply (preserves_bind R R_trans); [apply Hfetch; simpl; tauto|].
  intros lista_luni.
  apply (preserves_bind R R_trans); [apply (preserves_lift R R_refl)|].
  intros luna_activa.
  apply (preserves_bind R R_trans); [apply Hconfig|]. intros pIdAsoc'.
  apply (preserves_bind R R_trans); [apply Hconfig|]. intros pIdAp'.
  apply (preserves_bind R R_trans); [apply Hfetch; simpl; tauto|].
  intros home.
  apply (preserves_bind R R_trans); [apply Hfetch; simpl; tauto|].
  intros index.
  apply (preserves_bind R R_trans); [apply Hfetch; simpl; tauto|].
  intros receipts.
  apply (preserves_ret R R_refl).
Qed.

Lemma authenticate_keeps_data : preserves keeps_data (_authenticate post K).
Proof.
  intros st. unfold keeps_data.
  destruct (authenticate_outcome post K st) as (r & st' & Hrun & [[_ Hs]|[_ Hs]]);
    rewrite Hrun; simpl; now rewrite Hs.
Qed.

Lemma authenticate_stays_authenticated :
  preserves stays_authenticated (_authenticate post K).
Proof.
  intros st Ha.
  destruct (authenticate_outcome post K st) as (r & st' & Hrun & [[_ Hs]|[_ Hs]]);
    rewrite Hrun; simpl; rewrite Hs; [reflexivity | exact Ha].
Qed.

Lemma fetch_data_keeps_data (url : string) (payload : pyval) :
  preserves keeps_data (_fetch_data post K url payload).
Proof. intros st. unfold keeps_data. now rewrite fetch_data_self. Qed.

Lemma fetch_data_stays_authenticated (url : string) (payload : pyval) :
  preserves stays_authenticated (_fetch_data post K url payload).
Proof. intros st Ha. now rewrite fetch_data_self. Qed.

Lemma fetch_data_sends_data_only (url : string) (a b : pyval) (rest : pydict) :
  In url [URL_LISTA_LUNI K; URL_HOME K; URL_INDEX K; URL_RECEIPTS K] ->
  preserves (sends_data_only K)
    (_fetch_data post K url (PDict (("pIdAsoc", a) :: ("pIdAp", b) :: rest))).
Proof.
  intros Hurl st Ha.
  destruct (fetch_data_cases post K url
              (PDict (("pIdAsoc", a) :: ("pIdAp", b) :: rest)) st)
    as (v & st' & Hrun & Hself & Hnone & Hsome).
  rewrite Hrun. simpl. split; [now rewrite Hself|].
  destruct (session (self st)) as [s|] eqn:Hs.
  - destruct (Hsome ltac:(discriminate)) as (_ & Hsent & _).
    eexists. split; [exact Hsent|].
    constructor; [|constructor].
    split; [reflexivity|]. split; [exact Hurl|].
    now exists a, b, rest.
  - destruct (Hnone eq_refl) as [_ ->].
    exists []. split; [now rewrite app_nil_r | constructor].
Qed.

Lemma update_keeps_data : preserves keeps_data (_async_update_data post K).
Proof.
  apply update_preserves.
  - apply keeps_data_refl.
  - apply keeps_data_trans.
  - reflexivity.
  - intros st _. apply authenticate_keeps_data.
  - intros. apply fetch_data_keeps_data.
Qed.

Lemma update_stays_authenticated :
  preserves stays_authenticated (_async_update_data post K).
Proof.
  apply update_preserves.
  - apply stays_authenticated_refl.
  - apply stays_authenticated_trans.
  - intros st Ha. exact Ha.
  - intros st _. apply authenticate_stays_authenticated.
  - intros. apply fetch_data_stays_authenticated.
Qed.

Lemma update_sends_data_only :
  preserves (sends_data_only K) (_async_update_data post K).
Proof.
  apply update_preserves.
  - apply sends_data_only_refl.
  - apply sends_data_only_trans.
  - intros st Ha. split; [exact Ha|].
    exists []. split; [simpl; now rewrite app_nil_r | constructor].
  - intros st Hfalse Ha. rewrite Ha in Hfalse. discriminate Hfalse.
  - intros. now apply fetch_data_sends_data_only.
Qed.
End Refresh.

(** ** Reading off how a method returned *)

Section Inversion.
Context {World : Type}.

Lemma bind_returned {A B} (m : M World A) (f : A -> M World B)
    (st st' : State World) (b : B) :
  bind m f st = (inr b, st') ->
  exists a st1, m st = (inr a, st1) /\ f a st1 = (inr b, st').
Proof.
  unfold bind. destruct (m st) as [[e|a] st1]; intros H.
  - discriminate H.
  - now exists a, st1.
Qed.

Lemma try_reraise_returned {A} (body : M World A) (k : exn_kind)
    (msg : exn -> string) (st st' : State World) (a : A) :
  try_except_Exception body (fun e => raise k (msg e)) st = (inr a, st') ->
  body st = (inr a, st').
Proof.
  unfold try_except_Exception, raise.
  destruct (body st) as [[e|a'] st1]; intros H; [discriminate H | exact H].
Qed.

Lemma try_reraise_outcome {A} (body : M World A) (k : exn_kind)
    (msg : exn -> string) (st : State World) :
  returns (fst (try_except_Exception body (fun e => raise k (msg e)) st)) \/
  raises (fst (try_except_Exception body (fun e => raise k (msg e)) st)) k.
Proof.
  unfold try_except_Exception, raise.
  destruct (body st) as [[e|a] st1]; simpl.
  - right. now exists (msg e).
  - left. now exists a.
Qed.

Lemma config_item_returned (k : string) (st st' : State World) (v : pyval) :
  config_item k st = (inr v, st') ->
  st' = st /\ dict_get (config (self st)) k = Some v.
Proof.
  unfold config_item. simpl.
  destruct (dict_get (config (self st)) k); intros H; inversion H; now subst.
Qed.
End Inversion.

Section Cycle.
Context {World : Type}.
Context (post : Request -> World -> result Response * World).
Context (K : Const).

Lemma authenticate_sent (st : State World) :
  exists new, sent (snd (_authenticate post K st)) = sent st ++ new.
Proof.
  unfold _authenticate. run_method.
  destruct (dict_get (config (self st)) "pUser") as [u|];
    [|exists []; simpl; now rewrite app_nil_r].
  destruct (dict_get (config (self st)) "pPass") as [p|];
    [|exists []; simpl; now rewrite app_nil_r].
  simpl.
  destruct (session (self st)) as [s|];
    [|exists []; simpl; now rewrite app_nil_r].
  destruct (post _ (world st)) as [[e|response] w]; simpl;
    [eexists; reflexivity|].
  destruct (status response =? 200); [|eexists; reflexivity].
  destruct (text response) as [e|body]; simpl; [eexists; reflexivity|].
  destruct (str_contains _ body); simpl; eexists; reflexivity.
Qed.

(** A cycle raises nothing but [UpdateFailed]. *)
Lemma update_outcome (st : State World) :
  returns (fst (_async_update_data post K st)) \/
  raises (fst (_async_update_data post K st)) UpdateFailed.
Proof. unfold _async_update_data. apply try_reraise_outcome. Qed.

(** A cycle that returns went through the four fetches. *)
Lemma update_returned (st st' : State World) (v : pyval) :
  _async_update_data post K st = (Ok v, st') ->
  exists lista_luni luna_activa home index receipts,
    v = PDict [("home", home); ("index", index); ("receipts", receipts);
               ("lista_luni", lista_luni); ("luna_activa", luna_activa)] /\
    fetched_in_cycle post K st st' lista_luni luna_activa home index receipts.
Proof.
  unfold _async_update_data, Ok. intros H.
  apply try_reraise_returned in H.
  apply bind_returned in H. destruct H as (c & s0 & Hc & H).
  inversion Hc; subst c s0; clear Hc.
  apply bind_returned in H. destruct H as ([] & s0 & Hsession & H).
  assert (Hs0 : sent s0 = sent st).
  { destruct (session (self st)); inversion Hsession; reflexivity. }
  clear Hsession.
  apply bind_returned in H. destruct H as (c & s1 & Hc & H).
  inversion Hc; subst c s1; clear Hc.
  apply bind_returned in H. destruct H as ([] & s1 & Hlogin & H).
  assert (Hs1 : exists new, sent s1 = sent st ++ new).
  { destruct (authenticated (self s0)).
    - inversion Hlogin; subst. exists []. now rewrite app_nil_r.
    - destruct (authenticate_sent s0) as [new Hnew].
      rewrite Hlogin in Hnew. simpl in Hnew. exists new. now rewrite <- Hs0. }
  clear Hlogin Hs0.
  apply bind_returned in H. destruct H as (pIdAsoc & s2 & Hk1 & H).
  apply config_item_returned in Hk1. destruct Hk1 as [-> Hk1].
  apply bind_returned in H. destruct H as (pIdAp & s2 & Hk2 & H).
  apply config_item_returned in Hk2. destruct Hk2 as [-> Hk2].
  apply bind_returned in H. destruct H as (lista_luni & s2 & Hlista & H).
  apply bind_returned in H. destruct H as (luna_activa & s3 & Hluna & H).
  unfold lift in Hluna. inversion Hluna as [[Hl Hs]]; subst s3; clear Hluna.
  apply bind_returned in H. destruct H as (pIdAsoc' & s3 & Hk3 & H).
  apply config_item_returned in Hk3. destruct Hk3 as [-> Hk3].
  apply bind_returned in H. destruct H as (pIdAp' & s3 & Hk4 & H).
  apply config_item_returned in Hk4. destruct Hk4 as [-> Hk4].
  assert (Hsame : self s2 = self s1).
  { pose proof (fetch_data_self post K (URL_LISTA_LUNI K)
                  (PDict [("pIdAsoc", pIdAsoc); ("pIdAp", pIdAp)]) s1) as Hf.
    now rewrite Hlista in Hf. }
  rewrite Hsame in Hk3, Hk4.
  assert (pIdAsoc' = pIdAsoc) by congruence.
  assert (pIdAp' = pIdAp) by congruence. subst pIdAsoc' pIdAp'.
  apply bind_returned in H. destruct H as (home & s3 & Hhome & H).
  apply bind_returned in H. destruct H as (index & s4 & Hindex & H).
  apply bind_returned in H. destruct H as (receipts & s5 & Hreceipts & H).
  unfold ret, Ok in H. inversion H; subst v s5; clear H.
  exists lista_luni, luna_activa, home, index, receipts.
  split; [reflexivity|].
  exists pIdAsoc, pIdAp, s1, s2, s3, s4.
  repeat split; assumption.
Qed.
End Cycle.

Section CycleClaims.
Context {World : Type}.
Context (post : Request -> World -> result Response * World).
Context (K : Const).

(** A cycle in which logging in raises stops there. *)
Lemma update_login_raises (st st' : State World) (e : exn) :
  authenticated (self st) = false ->
  _authenticate post K (with_session st) = (inl e, st') ->
  _async_update_data post K st =
    (Raise UpdateFailed ("Eroare la actualizarea datelor: " ++ exn_str e)%string, st').
Proof.
  intros Hfalse Hlogin.
  unfold _async_update_data, try_except_Exception, bind, get_self, put_self,
    ret, raise, with_session in *.
  cbn -[_authenticate _fetch_data] in *.
  destruct (session (self st)) as [s|]; cbn -[_authenticate _fetch_data] in *;
    rewrite Hfalse, Hlogin; reflexivity.
Qed.

(** C3: a cycle either returns a snapshot with all five fields, each
    obtained in this very cycle, or raises [UpdateFailed] and returns
    no snapshot; in both cases the snapshot the sensors read is the one
    that was there before, so a reader never sees fields of two cycles
    mixed. *)
Theorem update_whole_snapshot_or_none (st : State World) :
  exists r st',
    _async_update_data post K st = (r, st') /\
    data (self st') = data (self st) /\
    (raises r UpdateFailed \/
     exists lista_luni luna_activa home index receipts,
       r = Ok (PDict [("home", home); ("index", index); ("receipts", receipts);
                      ("lista_luni", lista_luni); ("luna_activa", luna_activa)]) /\
       fetched_in_cycle post K st st' lista_luni luna_activa home index receipts).
Proof.
  destruct (_async_update_data post K st) as [r st'] eqn:Hrun.
  exists r, st'. split; [reflexivity|]. split.
  - pose proof (update_keeps_data post K st) as Hkeep.
    unfold keeps_data in Hkeep. now rewrite Hrun in Hkeep.
  - destruct (update_outcome post K st) as [[v Hv]|Hraise];
      rewrite Hrun in *; simpl in *.
    + right. subst r.
      destruct (update_returned post K st st' v Hrun)
        as (lista_luni & luna_activa & home & index & receipts & -> & Hcycle).
      now exists lista_luni, luna_activa, home, index, receipts.
    + now left.
Qed.

(** C4: with the two credentials configured, [_authenticate] returns,
    with [authenticated] set, exactly when the login POST answers with
    status 200 and a body that contains "Acces online proprietari"; in
    every other case (another status, no marker, the transport or the
    body raising) it raises [UpdateFailed] and leaves [authenticated]
    as it was.  A cycle that has to log in and is not let in raises
    [UpdateFailed], [authenticated] still false. *)
Theorem authenticate_iff_welcomed (st : State World) (u p : pyval) :
  dict_get (config (self st)) "pUser" = Some u ->
  dict_get (config (self st)) "pPass" = Some p ->
  (exists r st',
      _authenticate post K st = (r, st') /\
      (r = Ok tt <->
       session (self st) <> None /\
       exists response,
         fst (post (login_request K u p) (world st)) = Ok response /\
         welcomes response) /\
      (r = Ok tt -> authenticated (self st') = true) /\
      (r <> Ok tt ->
       raises r UpdateFailed /\
       authenticated (self st') = authenticated (self st))) /\
  (authenticated (self st) = false ->
   ~ (exists response,
         fst (post (login_request K u p) (world st)) = Ok response /\
         welcomes response) ->
   raises (fst (_async_update_data post K st)) UpdateFailed /\
   authenticated (self (snd (_async_update_data post K st))) = false).
Proof.
  intros Hu Hp. split.
  - destruct (authenticate_accepts post K st u p Hu Hp)
      as (r & st' & Hrun & Hcases & Hiff).
    destruct (authenticate_outcome post K st)
      as (r0 & st0 & Hrun0 & Hout).
    rewrite Hrun in Hrun0. inversion Hrun0; subst r0 st0; clear Hrun0.
    exists r, st'. split; [exact Hrun|]. split; [exact Hiff|]. split.
    + intros ->. destruct Hout as [[_ Hs]|[[[m Hm]|[m Hm]] _]];
        [now rewrite Hs | discriminate Hm | discriminate Hm].
    + intros Hne. destruct Hcases as [->|Hraise]; [contradiction|].
      split; [exact Hraise|].
      destruct Hout as [[-> _]|[_ Hs]]; [contradiction | now rewrite Hs].
  - intros Hfalse Hno.
    assert (Hu' : dict_get (config (self (with_session st))) "pUser" = Some u).
    { unfold with_session. now destruct (session (self st)). }
    assert (Hp' : dict_get (config (self (with_session st))) "pPass" = Some p).
    { unfold with_session. now destruct (session (self st)). }
    assert (Hw : world (with_session st) = world st).
    { unfold with_session. now destruct (session (self st)). }
    assert (Hf : authenticated (self (with_session st)) = false).
    { unfold with_session. now destruct (session (self st)). }
    destruct (authenticate_accepts post K _ u p Hu' Hp')
      as (r & st' & Hrun & Hcases & Hiff).
    destruct (authenticate_outcome post K (with_session st))
      as (r0 & st0 & Hrun0 & Hout).
    rewrite Hrun in Hrun0. inversion Hrun0; subst r0 st0; clear Hrun0.
    rewrite Hw in Hiff.
    destruct Hcases as [->|[m ->]].
    + exfalso. apply Hno. now apply Hiff.
    + rewrite (update_login_raises st st' _ Hfalse Hrun). simpl. split.
      * eexists. reflexivity.
      * destruct Hout as [[Hok _]|[_ Hs]]; [discriminate Hok|].
        now rewrite Hs.
Qed.

(** C6: from a state in which [authenticated] is true, no sequence of
    calls of the coordinator's methods makes it false; a fetch, failed
    or not, leaves the coordinator object as it was; and a cycle,
    failed or not, ends with [authenticated] true and has sent no login
    request. *)
Theorem authenticated_never_reset (ops : list operation) (st : State World) :
  authenticated (self st) = true ->
  authenticated (self (after_all post K ops st)) = true /\
  (forall url payload, self (snd (_fetch_data post K url payload st)) = self st) /\
  authenticated (self (snd (_async_update_data post K st))) = true /\
  exists new,
    sent (snd (_async_update_data post K st)) = sent st ++ new /\
    forall u p, ~ In (login_request K u p) new.
Proof.
  intros Ha. split; [|split].
  - revert st Ha. unfold after_all.
    induction ops as [|op ops IH]; intros st Ha; simpl; [exact Ha|].
    apply IH. destruct op; simpl.
    + now apply authenticate_stays_authenticated.
    + now apply fetch_data_stays_authenticated.
    + now apply update_stays_authenticated.
  - intros url payload. apply fetch_data_self.
  - destruct (update_sends_data_only post K st Ha) as [Hafter (new & Hsent & Hall)].
    split; [exact Hafter|]. exists new. split; [exact Hsent|].
    intros u p Hin. rewrite Forall_forall in Hall.
    exact (data_request_not_login K _ (Hall _ Hin) u p eq_refl).
Qed.
End CycleClaims.

(** ** Runs against the scripted portal *)

Example first_cycle_logs_in_and_fetches :
  let r := _async_update_data scripted_post test_const
             (start_state (__init__ test_config)
                (welcome_page :: null_amounts_answers)) in
  fst r = Ok null_amounts_snapshot /\
  authenticated (self (snd r)) = true /\
  map req_url (sent (snd r)) =
    [URL_LOGIN test_const; URL_LISTA_LUNI test_const; URL_HOME test_const;
     URL_INDEX test_const; URL_RECEIPTS test_const].
Proof. vm_compute. repeat split. Qed.

Example failed_month_list_fails_cycle :
  let r := _async_update_data scripted_post test_const
             (start_state logged_in []) in
  raises (fst r) UpdateFailed /\ data (self (snd r)) = PNone.
Proof. vm_compute. split; [eexists|]; reflexivity. Qed.

(** A portal that answers the login with the owners' page lets the
    coordinator in. *)
Lemma authenticate_iff_welcomed_witness :
  exists st',
    _authenticate scripted_post test_const (start_state logged_out [welcome_page])
      = (Ok tt, st') /\
    authenticated (self st') = true.
Proof.
  destruct (authenticate_iff_welcomed scripted_post test_const
              (start_state logged_out [welcome_page])
              (PStr "ana") (PStr "secret") eq_refl eq_refl)
    as [(r & st' & Hrun & Hiff & Hset & _) _].
  assert (Hr : r = Ok tt).
  { apply Hiff. split; [discriminate|].
    eexists. split; [reflexivity|].
    split; [reflexivity|]. eexists. split; reflexivity. }
  subst r. exists st'. split; [exact Hrun | now apply Hset].
Defined.

(** A logged-in coordinator whose session has expired on the portal:
    the cycle fails, a login is refused, a fetch fails to connect, and
    [authenticated] is still true. *)
Lemma authenticated_never_reset_witness :
  authenticated
    (self (after_all scripted_post test_const
             [Call_async_update_data; Call_authenticate;
              Call_fetch_data (URL_HOME test_const) (PDict [])]
             (start_state logged_in [page "Sesiune expirata"]))) = true.
Proof.
  exact (proj1 (authenticated_never_reset scripted_post test_const
                  [Call_async_update_data; Call_authenticate;
                   Call_fetch_data (URL_HOME test_const) (PDict [])]
                  (start_state logged_in [page "Sesiune expirata"]) eq_refl)).
Defined.

(** ** Numbers *)

(** [div_half_even] is within half a unit of the quotient. *)
Lemma div_half_even_nearest (p q : Z) :
  0 <= p -> 0 < q -> 2 * Z.abs (q * div_half_even p q - p) <= q.
Proof.
  intros Hp Hq. unfold div_half_even.
  pose proof (Z.div_mod p q ltac:(lia)) as Hdm.
  pose proof (Z.mod_pos_bound p q Hq) as Hr.
  destruct (Z.ltb_spec (2 * (p mod q)) q);
    [|destruct (Z.ltb_spec q (2 * (p mod q)));
      [|destruct (Z.even (p / q))]]; nia.
Qed.

Example round_ties_to_even :
  py_round 0.125%float 2 = Ok 0.12%float /\
  py_round 0.375%float 2 = Ok 0.38%float /\
  py_round 2.675%float 2 = Ok 2.67%float.
Proof. vm_compute. repeat split. Qed.

Example format_two_places :
  format_f 2 1234.56%float = "1234.56"%string /\
  format_f 2 0%float = "0.00"%string /\
  format_f 2 (-0.001)%float = "-0.00"%string /\
  format_f 2 1.005%float = "1.00"%string.
Proof. vm_compute. repeat split. Qed.

(** ** The sensors *)

(** A snapshot in which every group is missing reads as no data: each
    sensor returns its default. *)
Example sensors_on_empty_snapshot (rt : Runtime) :
  ClientSensor.native_value (PDict []) = Ok PNone /\
  ApaReceSensor.native_value rt (PDict []) = Ok (PFloat 0%float) /\
  PlatiSensor.native_value (PDict []) = Ok (PInt 0) /\
  PlatiSensor.extra_state_attributes rt (PDict []) = Ok (PDict []) /\
  RestantaSensor.native_value rt (PDict []) = Ok (PFloat 0%float) /\
  ContorTrimisSensor.native_value (PDict []) = Ok (PStr "Nu") /\
  LunaCurentaSensor.native_value (PDict []) = Ok PNone /\
  exists attrs,
    ClientSensor.extra_state_attributes rt (PDict []) = Ok (PDict attrs) /\
    dict_get attrs "Restanță" = Some (PStr "0.00 RON").
Proof.
  repeat split; try (vm_compute; reflexivity).
  eexists. split; [reflexivity|]. vm_compute. reflexivity.
Qed.

(** C7: the sensors' reads do raise on a snapshot a cycle can publish.
    With a null ['datorie'] in the home summary and a null ['suma'] in a
    receipt, [ClientSensor.extra_state_attributes] and
    [PlatiSensor.extra_state_attributes] raise [TypeError] (from
    [int(None)]), whatever the runtime; and with a list where the home
    summary should be, [ClientSensor.native_value] raises
    [AttributeError]. *)
Theorem sensor_reads_raise (rt : Runtime) :
  fst (_async_update_data scripted_post test_const
         (start_state logged_in null_amounts_answers)) = Ok null_amounts_snapshot /\
  raises (ClientSensor.extra_state_attributes rt null_amounts_snapshot) TypeError /\
  raises (PlatiSensor.extra_state_attributes rt null_amounts_snapshot) TypeError /\
  raises (ClientSensor.native_value (PDict [("home", PList [])])) AttributeError.
Proof.
  split; [vm_compute; reflexivity|].
  repeat split; eexists; reflexivity.
Qed.

(** C8: [RestantaSensor.native_value] divides the integer cents of
    ['datorie'] by 100 and rounds to two places: 123456 gives 1234.56,
    shown as "1234.56", and an absent or null ['datorie'] gives 0.0,
    shown as "0.00". *)
Theorem restanta_cents_to_ron (rt : Runtime) (data : pyval) (d : pydict) :
  group_item data "home" "1" = Ok (PDict d) ->
  (dict_get d "datorie" = Some (PInt 123456) ->
   RestantaSensor.native_value rt data = Ok (PFloat 1234.56%float) /\
   format_f 2 1234.56%float = "1234.56"%string) /\
  (dict_get d "datorie" = None \/ dict_get d "datorie" = Some PNone ->
   RestantaSensor.native_value rt data = Ok (PFloat 0%float) /\
   format_f 2 0%float = "0.00"%string) /\
  (forall n, dict_get d "datorie" = Some (PInt n) -> n <> 0 ->
   RestantaSensor.native_value rt data =
     rbind (int_truediv n 100)
       (fun q => rbind (py_round q 2) (fun y => Ok (PFloat y)))).
Proof.
  intros Hhome.
  unfold RestantaSensor.native_value, home_field. rewrite Hhome.
  cbn [rbind Ok py_get].
  split; [|split].
  - intros Hd. rewrite Hd. split; vm_compute; reflexivity.
  - intros [Hd|Hd]; rewrite Hd; split; vm_compute; reflexivity.
  - intros n Hd Hn. rewrite Hd. cbn [rbind Ok truthy py_int].
    destruct (Z.eqb_spec n 0); [contradiction|reflexivity].
Qed.

(** 123456 cents are 1234.56 RON. *)
Lemma restanta_cents_to_ron_witness :
  RestantaSensor.native_value test_runtime
    (PDict [("home", PDict [("1", PDict [("datorie", PInt 123456)])])])
  = Ok (PFloat 1234.56%float).
Proof.
  exact (proj1 (proj1 (restanta_cents_to_ron test_runtime
                         (PDict [("home", PDict [("1", PDict [("datorie", PInt 123456)])])])
                         [("datorie", PInt 123456)] eq_refl) eq_refl)).
Defined.

Lemma py_float_non_numeric (rt : Runtime) (raw : pyval) :
  non_numeric rt raw ->
  raises (py_float rt raw) ValueError \/ raises (py_float rt raw) TypeError.
Proof.
  destruct raw; simpl; intros H; try contradiction;
    try (right; eexists; reflexivity).
  rewrite H. left. eexists. reflexivity.
Qed.

Lemma float_of_int_outcome (n : Z) :
  returns (float_of_int n) \/ raises (float_of_int n) OverflowError.
Proof.
  unfold float_of_int.
  destruct (SF_is_infinite _); [right | left]; eexists; reflexivity.
Qed.

Lemma py_round_outcome (x : float) (ndigits : nat) :
  returns (py_round x ndigits) \/ raises (py_round x ndigits) OverflowError.
Proof.
  unfold py_round.
  destruct (Prim2SF x) as [s|s| |s m e]; try (left; eexists; reflexivity).
  destruct (scaled_digits m e ndigits); try (left; eexists; reflexivity).
  destruct (SF_is_infinite _); [right | left]; eexists; reflexivity.
Qed.

(** [div_half_even] gives the nearest integer, the even one on a tie. *)
Lemma div_half_even_spec (p q : Z) :
  0 <= p -> 0 < q ->
  0 <= div_half_even p q /\
  2 * Z.abs (div_half_even p q * q - p) <= q /\
  (2 * Z.abs (div_half_even p q * q - p) = q -> Z.even (div_half_even p q) = true).
Proof.
  intros Hp Hq. unfold div_half_even.
  pose proof (Z.div_mod p q ltac:(lia)) as Hdm.
  pose proof (Z.mod_pos_bound p q Hq) as Hr.
  pose proof (Z.div_pos p q Hp Hq) as Hd.
  destruct (Z.ltb_spec (2 * (p mod q)) q);
    [|destruct (Z.ltb_spec q (2 * (p mod q)));
      [|destruct (Z.even (p / q)) eqn:He]].
  - split; [nia|]. split; [nia|]. intros Htie. nia.
  - split; [nia|]. split; [nia|]. intros Htie. nia.
  - split; [nia|]. split; [nia|]. intros _. exact He.
  - split; [nia|]. split; [nia|]. intros _. rewrite Z.even_add, He. reflexivity.
Qed.

Lemma scaled_digits_nearest (m : positive) (e : Z) (ndigits : nat) :
  nearest_scaled m e ndigits (scaled_digits m e ndigits).
Proof.
  unfold nearest_scaled, scaled_digits.
  assert (Hp : 0 <= Zpos m * 10 ^ Z.of_nat ndigits).
  { apply Z.mul_nonneg_nonneg; [lia|]. apply Z.pow_nonneg. lia. }
  destruct (Z.leb_spec 0 e) as [He|He].
  - rewrite (Z.max_l 0 (- e)) by lia. rewrite (Z.max_r 0 e) by lia.
    change (2 ^ 0) with 1.
    assert (H2 : 0 <= 2 ^ e) by (apply Z.pow_nonneg; lia).
    split; [nia|]. split; [lia|]. intros Htie. lia.
  - rewrite (Z.max_r 0 (- e)) by lia. rewrite (Z.max_l 0 e) by lia.
    change (2 ^ 0) with 1. rewrite Z.mul_1_r.
    apply div_half_even_spec; [exact Hp|].
    apply Z.pow_pos_nonneg; lia.
Qed.

(** What [py_round] returns is the rounded value. *)
Lemma py_round_rounded (z y : float) (ndigits : nat) :
  py_round z ndigits = Ok y -> rounded_to ndigits z y.
Proof.
  unfold py_round, rounded_to.
  destruct (Prim2SF z) as [s|s| |s m e];
    try (intros H; inversion H; reflexivity).
  pose proof (scaled_digits_nearest m e ndigits) as Hnear.
  destruct (scaled_digits m e ndigits) as [|d|d] eqn:HD.
  - intros H. inversion H; subst. exists 0. now split.
  - destruct (SF_is_infinite _); [discriminate|].
    intros H. inversion H; subst. exists (Zpos d). now split.
  - destruct Hnear as [Hnn _]. lia.
Qed.

Lemma py_float_outcome (rt : Runtime) (raw : pyval) :
  non_numeric rt raw \/ returns (py_float rt raw) \/
  raises (py_float rt raw) OverflowError.
Proof.
  destruct raw as [|b|n|x|s|l|d]; simpl; auto;
    try (right; left; eexists; reflexivity).
  - destruct (float_of_int_outcome n) as [H|H]; auto.
  - destruct (float_of_str rt s) as [x|]; [|now left].
    right; left. eexists; reflexivity.
Qed.

Lemma non_numeric_not_returned (rt : Runtime) (raw : pyval) :
  non_numeric rt raw -> ~ returns (py_float rt raw).
Proof.
  intros Hraw [x Hx].
  destruct (py_float_non_numeric rt raw Hraw) as [[m Hm]|[m Hm]];
    rewrite Hm in Hx; discriminate Hx.
Qed.

(** C9, as stated, does not hold: the JSON value [true] is not a number,
    and for ['index_nou': true] [ApaReceSensor.native_value] returns
    0.001, not [None], because [float(True)] is 1.0. *)
Lemma apa_rece_boolean_not_null :
  ~ (forall (rt : Runtime) (data : pyval) (d : pydict) (raw : pyval),
        group_item data "index" "2" = Ok (PDict d) ->
        dict_get d "index_nou" = Some raw ->
        not_json_number raw ->
        ApaReceSensor.native_value rt data = Ok PNone).
Proof.
  intros H.
  specialize (H test_runtime
                (PDict [("index", PDict [("2", PDict [("index_nou", PBool true)])])])
                [("index_nou", PBool true)] (PBool true) eq_refl eq_refl I).
  vm_compute in H. discriminate H.
Qed.

(** C9 (amended): [ApaReceSensor.native_value] converts ['index_nou']
    with [float()], divides by 1000 and rounds to three decimals, to the
    nearest and to the even one on a tie: the integer 1234 gives 1.234,
    the number 1234.5678 gives 1.235, 62.5 gives 0.062, an absent field
    gives 0.0. It returns [None], and does not raise, exactly for the raw
    values [float()] rejects (null, a list, a dict, a text that is not a
    float literal). A value [float()] accepts is converted also when it
    is not a JSON number: [true] gives 0.001 and [false] 0.0. An integer
    too large for a float raises [OverflowError]. *)
Theorem apa_rece_thousandths (rt : Runtime) (data : pyval) (d : pydict) :
  group_item data "index" "2" = Ok (PDict d) ->
  (dict_get d "index_nou" = Some (PInt 1234) ->
   ApaReceSensor.native_value rt data = Ok (PFloat 1.234%float)) /\
  (dict_get d "index_nou" = Some (PFloat 1234.5678%float) ->
   ApaReceSensor.native_value rt data = Ok (PFloat 1.235%float)) /\
  (dict_get d "index_nou" = Some (PFloat 62.5%float) ->
   ApaReceSensor.native_value rt data = Ok (PFloat 0.062%float)) /\
  (dict_get d "index_nou" = Some (PBool true) ->
   ApaReceSensor.native_value rt data = Ok (PFloat 0.001%float)) /\
  (dict_get d "index_nou" = Some (PBool false) ->
   ApaReceSensor.native_value rt data = Ok (PFloat 0%float)) /\
  (dict_get d "index_nou" = None ->
   ApaReceSensor.native_value rt data = Ok (PFloat 0%float)) /\
  (forall raw x, dict_get d "index_nou" = Some raw -> py_float rt raw = Ok x ->
   ApaReceSensor.native_value rt data =
     rbind (py_round (PrimFloat.div x 1000%float) 3) (fun y => Ok (PFloat y)) /\
   forall v, ApaReceSensor.native_value rt data = Ok v ->
             exists y, v = PFloat y /\ rounded_to 3 (PrimFloat.div x 1000%float) y) /\
  (forall raw, dict_get d "index_nou" = Some raw ->
   raises (py_float rt raw) OverflowError ->
   raises (ApaReceSensor.native_value rt data) OverflowError) /\
  (forall raw, dict_get d "index_nou" = Some raw ->
   (ApaReceSensor.native_value rt data = Ok PNone <-> non_numeric rt raw)).
Proof.
  intros Hindex.
  unfold ApaReceSensor.native_value, meter_value. rewrite Hindex.
  cbn [rbind Ok py_get].
  assert (Haccepted : forall x,
    try_except
      (rbind (py_round (PrimFloat.div x 1000%float) 3) (fun y => Ok (PFloat y)))
      [ValueError; TypeError] (fun _ => Ok PNone)
    = rbind (py_round (PrimFloat.div x 1000%float) 3) (fun y => Ok (PFloat y))).
  { intros x.
    destruct (py_round_outcome (PrimFloat.div x 1000%float) 3) as [[y Hy]|[m Hm]];
      [rewrite Hy | rewrite Hm]; reflexivity. }
  split; [intros Hd; rewrite Hd; vm_compute; reflexivity|].
  split; [intros Hd; rewrite Hd; vm_compute; reflexivity|].
  split; [intros Hd; rewrite Hd; vm_compute; reflexivity|].
  split; [intros Hd; rewrite Hd; vm_compute; reflexivity|].
  split; [intros Hd; rewrite Hd; vm_compute; reflexivity|].
  split; [intros Hd; rewrite Hd; vm_compute; reflexivity|].
  split; [|split].
  - intros raw x Hd Hx. rewrite Hd. cbn [rbind Ok]. rewrite Hx.
    cbn [rbind Ok]. rewrite Haccepted. split; [reflexivity|].
    intros v Hv.
    destruct (py_round (PrimFloat.div x 1000%float) 3) as [e|y] eqn:Hy;
      [discriminate Hv|].
    cbn [rbind Ok] in Hv. inversion Hv; subst v.
    exists y. split; [reflexivity|]. now apply py_round_rounded.
  - intros raw Hd [m Hm]. rewrite Hd. cbn [rbind Ok]. rewrite Hm.
    eexists. reflexivity.
  - intros raw Hd. rewrite Hd. cbn [rbind Ok]. split.
    + intros Hnone.
      destruct (py_float_outcome rt raw) as [Hraw|[[x Hx]|[m Hm]]];
        [exact Hraw| |].
      * exfalso. rewrite Hx in Hnone. cbn [rbind Ok] in Hnone.
        rewrite Haccepted in Hnone.
        destruct (py_round (PrimFloat.div x 1000%float) 3);
          discriminate Hnone.
      * exfalso. rewrite Hm in Hnone. discriminate Hnone.
    + intros Hraw.
      destruct (py_float_non_numeric rt raw Hraw) as [[m Hm]|[m Hm]];
        rewrite Hm; reflexivity.
Qed.

(** A meter index that is not a number reads as [None]. *)
Lemma apa_rece_thousandths_witness :
  ApaReceSensor.native_value test_runtime
    (PDict [("index", PDict [("2", PDict [("index_nou", PStr "n/a")])])])
  = Ok PNone.
Proof.
  destruct (apa_rece_thousandths test_runtime
              (PDict [("index", PDict [("2", PDict [("index_nou", PStr "n/a")])])])
              [("index_nou", PStr "n/a")] eq_refl)
    as (_ & _ & _ & _ & _ & _ & _ & _ & Hnone).
  exact (proj2 (Hnone (PStr "n/a") eq_refl) eq_refl).
Defined.

(** A text the runtime reads as a number is converted like the number. *)
Example apa_rece_numeric_text :
  ApaReceSensor.native_value test_runtime
    (PDict [("index", PDict [("2", PDict [("index_nou", PStr "1234")])])])
  = Ok (PFloat 1.234%float).
Proof. vm_compute. reflexivity. Qed.

(** * Further properties *)

(** ** The active month, past the claims *)

Lemma active_month_among_first_three (entries : list pyval) :
  entries <> [] ->
  exists e, In e (firstn 3 entries) /\ active_month entries = entry_luna e.
Proof.
  intros Hne. unfold active_month.
  assert (Hhd : In (hd PNone entries) (firstn 3 entries)).
  { destruct entries; [contradiction | now left]. }
  destruct (find entry_closed (firstn 3 entries)) as [c|] eqn:Hfind.
  - destruct (truthy (entry_luna c)).
    + exists c. split; [|reflexivity]. now apply find_some in Hfind.
    + now exists (hd PNone entries).
  - now exists (hd PNone entries).
Qed.

(** X1: the active month of a month list is always the month of one of
    its first three entries. *)
Theorem get_luna_activa_among_first_three (d : pydict) :
  dict_wf d -> d <> [] ->
  Forall month_entry (firstn 3 (dict_values d)) ->
  exists e, In e (firstn 3 (dict_values d)) /\
            _get_luna_activa (PDict d) = Ok (entry_luna e).
Proof.
  intros Hwf Hne Hall.
  rewrite (get_luna_activa_active_month d Hwf Hne Hall).
  destruct (active_month_among_first_three (dict_values d)) as (e & Hin & He).
  - destruct d; [contradiction | discriminate].
  - exists e. split; [exact Hin | now rewrite He].
Qed.

(** The month of a list of four is one of the first three. *)
Lemma get_luna_activa_among_first_three_witness :
  exists e, In e (firstn 3 (dict_values months_2024)) /\
            _get_luna_activa (PDict months_2024) = Ok (entry_luna e).
Proof.
  apply (get_luna_activa_among_first_three months_2024 months_2024_wf).
  - discriminate.
  - simpl. repeat constructor; apply month_is_entry.
Defined.

Lemma next_closed_luna_stops (pre : pydict) (k : string) (e : pyval) (post : pydict) :
  Forall (fun x => month_entry x /\ entry_closed x = false) (dict_values pre) ->
  month_entry e -> entry_closed e = true ->
  next_closed_luna (pre ++ (k, e) :: post) = Ok (entry_luna e).
Proof.
  intros Hpre He Hclosed.
  induction pre as [|[k0 e0] pre IH]; simpl.
  - unfold entry_closed in Hclosed. destruct He as [Hl [o Ho]].
    rewrite Ho in *. simpl in *. rewrite Hclosed.
    apply month_entry_luna. split; [exact Hl | now exists o].
  - inversion Hpre as [|? ? [[_ [o Ho]] Hopen] Hrest]; subst.
    unfold entry_closed in Hopen. rewrite Ho in *. simpl in Hopen.
    cbn [rbind Ok]. rewrite Hopen.
    now apply IH.
Qed.

(** X2: the entries are read only up to the first closed one. When the
    entries before it are open month entries and its own month is
    truthy, that month is returned, whatever the later entries are, be
    they not even dicts. *)
Theorem get_luna_activa_reads_up_to_first_closed
    (pre : pydict) (k : string) (e : pyval) (post : pydict) :
  dict_wf (pre ++ (k, e) :: post) ->
  (List.length pre < 3)%nat ->
  Forall (fun x => month_entry x /\ entry_closed x = false) (dict_values pre) ->
  month_entry e -> entry_closed e = true -> truthy (entry_luna e) = true ->
  _get_luna_activa (PDict (pre ++ (k, e) :: post)) = Ok (entry_luna e).
Proof.
  intros Hwf Hlen Hpre He Hclosed Htruthy.
  rewrite (get_luna_activa_first_three _ Hwf).
  rewrite firstn_app.
  rewrite (firstn_all2 (n := 3) pre) by lia.
  destruct (3 - List.length pre)%nat as [|n] eqn:Hn; [lia|].
  cbn [firstn]. unfold active_of_first_three.
  rewrite (next_closed_luna_stops pre k e (firstn n post) Hpre He Hclosed).
  cbn [rbind Ok]. unfold py_or. now rewrite Htruthy.
Qed.

(** The first month is closed and the two after it are a number and a
    list: the first month is returned. *)
Lemma get_luna_activa_reads_up_to_first_closed_witness :
  _get_luna_activa
    (PDict ([] ++ ("1", month "2024-03" "0") :: [("2", PInt 7); ("3", PList [])]))
  = Ok (PStr "2024-03").
Proof.
  refine (get_luna_activa_reads_up_to_first_closed
            [] "1" (month "2024-03" "0") [("2", PInt 7); ("3", PList [])]
            _ _ _ (month_is_entry _ _) eq_refl eq_refl).
  - unfold dict_wf; simpl. repeat constructor; simpl; intuition discriminate.
  - simpl. lia.
  - constructor.
Defined.

(** X3: [_get_luna_activa] returns only on a dict that is not empty; on
    anything that is not a dict it raises [AttributeError]. *)
Theorem get_luna_activa_returns_only_on_months (v : pyval) :
  (returns (_get_luna_activa v) -> exists d, v = PDict d /\ d <> []) /\
  ((forall d, v <> PDict d) -> raises (_get_luna_activa v) AttributeError).
Proof.
  split.
  - intros [r Hr]. destruct v as [| | | | | |d]; try discriminate Hr.
    exists d. split; [reflexivity|]. intros ->. discriminate Hr.
  - intros Hnot. destruct v as [| | | | | |d];
      try (eexists; reflexivity).
    exfalso. now apply (Hnot d).
Qed.

(** ** Following a cycle forwards *)

Section CycleForward.
Context {World : Type}.
Context (post : Request -> World -> result Response * World).
Context (K : Const).

Lemma with_session_has_session (st : State World) :
  session (self (with_session st)) <> None.
Proof.
  unfold with_session. destruct (session (self st)) eqn:Hs.
  - now rewrite Hs.
  - discriminate.
Qed.

Lemma with_session_keeps (st : State World) :
  config (self (with_session st)) = config (self st) /\
  authenticated (self (with_session st)) = authenticated (self st) /\
  data (self (with_session st)) = data (self st) /\
  world (with_session st) = world st /\
  sent (with_session st) = sent st.
Proof. unfold with_session. now destruct (session (self st)). Qed.

(** A cycle starts by making sure there is a session, and goes on as if
    there had been one. *)
Lemma update_with_session (st : State World) :
  _async_update_data post K st = _async_update_data post K (with_session st).
Proof.
  unfold with_session.
  destruct (session (self st)) as [s|] eqn:Hs; [reflexivity|].
  unfold _async_update_data, try_except_Exception, bind, get_self, put_self, ret.
  cbn -[_authenticate _fetch_data _get_luna_activa].
  now rewrite Hs.
Qed.

(** [_fetch_data] in the form the steps below use: it returns, keeps the
    coordinator object, and with a session sends its one request. *)
Lemma fetch_data_step (url : string) (payload : pyval) (st : State World) :
  session (self st) <> None ->
  exists v st',
    _fetch_data post K url payload st = (Ok v, st') /\
    self st' = self st /\
    world st' =
      snd (post {| req_url := url; req_data := payload;
                   req_headers := HEADERS_POST K |} (world st)) /\
    sent st' = sent st ++ [{| req_url := url; req_data := payload;
                              req_headers := HEADERS_POST K |}] /\
    (no_months (fst (post {| req_url := url; req_data := payload;
                             req_headers := HEADERS_POST K |} (world st))) ->
     v = PDict []).
Proof.
  intros Hs.
  destruct (fetch_data_cases post K url payload st)
    as (v & st' & Hrun & Hself & _ & Hsome).
  destruct (Hsome Hs) as (Hworld & Hsent & Hv).
  exists v, st'. repeat split; try assumption.
  intros Hno. rewrite Hv. clear Hv.
  destruct (fst (post _ (world st))) as [e|response]; [reflexivity|].
  simpl in Hno.
  destruct (Z.eqb_spec (status response) 200) as [H200|H200]; [|reflexivity].
  destruct Hno as [Hno|[[e He]|Hno]].
  - contradiction.
  - now rewrite He.
  - now rewrite Hno.
Qed.

(** The cycle of a coordinator that is logged in and has its two ids:
    the month list is fetched; if no active month comes out of it the
    cycle raises there, else the three datasets are fetched for that
    month and the snapshot is returned. *)
Lemma update_authenticated_run (st : State World) (a b : pyval) :
  authenticated (self st) = true ->
  dict_get (config (self st)) "pIdAsoc" = Some a ->
  dict_get (config (self st)) "pIdAp" = Some b ->
  exists lista s2,
    _fetch_data post K (URL_LISTA_LUNI K)
      (PDict [("pIdAsoc", a); ("pIdAp", b)]) (with_session st) = (Ok lista, s2) /\
    match _get_luna_activa lista with
    | inl e =>
        _async_update_data post K st =
          (Raise UpdateFailed ("Eroare la actualizarea datelor: " ++ exn_str e)%string, s2)
    | inr luna =>
        let payload := PDict [("pIdAsoc", a); ("pIdAp", b); ("pLuna", luna)] in
        exists home s3 index s4 receipts s5,
          _fetch_data post K (URL_HOME K) payload s2 = (Ok home, s3) /\
          _fetch_data post K (URL_INDEX K) payload s3 = (Ok index, s4) /\
          _fetch_data post K (URL_RECEIPTS K) payload s4 = (Ok receipts, s5) /\
          _async_update_data post K st =
            (Ok (PDict [("home", home); ("index", index); ("receipts", receipts);
                        ("lista_luni", lista); ("luna_activa", luna)]), s5)
    end.
Proof.
  intros Ha Hcfg1 Hcfg2.
  rewrite update_with_session.
  destruct (with_session_keeps st) as (Hc & Hauth & _).
  pose proof (with_session_has_session st) as Hs.
  rewrite <- Hc in Hcfg1, Hcfg2. rewrite <- Hauth in Ha. clear Hc Hauth.
  remember (with_session st) as s1 eqn:E. clear E st.
  destruct (fetch_data_step (URL_LISTA_LUNI K)
              (PDict [("pIdAsoc", a); ("pIdAp", b)]) s1 Hs)
    as (lista & s2 & Hrun & Hself2 & _).
  exists lista, s2. split; [exact Hrun|].
  assert (Hprefix :
      _async_update_data post K s1 =
        try_except_Exception
          (bind (lift (_get_luna_activa lista))
             (fun luna_activa =>
                bind (config_item "pIdAsoc") (fun pIdAsoc =>
                bind (config_item "pIdAp") (fun pIdAp =>
                  let payload := PDict [("pIdAsoc", pIdAsoc); ("pIdAp", pIdAp);
                                        ("pLuna", luna_activa)] in
                  bind (_fetch_data post K (URL_HOME K) payload) (fun home =>
                  bind (_fetch_data post K (URL_INDEX K) payload) (fun index =>
                  bind (_fetch_data post K (URL_RECEIPTS K) payload) (fun receipts =>
                  ret (PDict [("home", home); ("index", index);
                              ("receipts", receipts); ("lista_luni", lista);
                              ("luna_activa", luna_activa)]))))))))
          (fun e => raise UpdateFailed
                      ("Eroare la actualizarea datelor: " ++ exn_str e)%string) s2).
  { unfold _async_update_data, try_except_Exception, bind, get_self, put_self,
      ret, config_item.
    destruct (session (self s1)) as [s|] eqn:Hs1; [|contradiction].
    cbn -[_authenticate _fetch_data _get_luna_activa].
    rewrite Hs1, Ha. cbn -[_authenticate _fetch_data _get_luna_activa].
    rewrite Hcfg1, Hcfg2. cbn -[_authenticate _fetch_data _get_luna_activa].
    rewrite Hrun. reflexivity. }
  rewrite Hprefix. clear Hprefix.
  unfold try_except_Exception, bind, lift, raise, config_item.
  destruct (_get_luna_activa lista) as [e|luna]; [reflexivity|].
  cbn -[_fetch_data]. rewrite Hself2, Hcfg1, Hcfg2.
  cbn -[_fetch_data].
  assert (Hs2 : session (self s2) <> None) by now rewrite Hself2.
  destruct (fetch_data_step (URL_HOME K)
              (PDict [("pIdAsoc", a); ("pIdAp", b); ("pLuna", luna)]) s2 Hs2)
    as (home & s3 & Hrun3 & Hself3 & _).
  assert (Hs3 : session (self s3) <> None) by now rewrite Hself3.
  destruct (fetch_data_step (URL_INDEX K)
              (PDict [("pIdAsoc", a); ("pIdAp", b); ("pLuna", luna)]) s3 Hs3)
    as (index & s4 & Hrun4 & Hself4 & _).
  assert (Hs4 : session (self s4) <> None) by now rewrite Hself4.
  destruct (fetch_data_step (URL_RECEIPTS K)
              (PDict [("pIdAsoc", a); ("pIdAp", b); ("pLuna", luna)]) s4 Hs4)
    as (receipts & s5 & Hrun5 & Hself5 & _).
  exists home, s3, index, s4, receipts, s5.
  rewrite Hrun3, Hrun4, Hrun5. unfold ret. repeat split; reflexivity.
Qed.
End CycleForward.

(** ** What a logged-in cycle sends, and when it fails *)

Section LoggedInCycle.
Context {World : Type}.
Context (post : Request -> World -> result Response * World).
Context (K : Const).

Lemma fetch_data_sent (url : string) (payload : pyval) (st st' : State World)
    (r : result pyval) :
  session (self st) <> None ->
  _fetch_data post K url payload st = (r, st') ->
  self st' = self st /\
  sent st' = sent st ++ [{| req_url := url; req_data := payload;
                            req_headers := HEADERS_POST K |}].
Proof.
  intros Hs Hrun.
  destruct (fetch_data_step post K url payload st Hs)
    as (v & s & Hrun' & Hself & _ & Hsent & _).
  rewrite Hrun in Hrun'. inversion Hrun'; subst. now split.
Qed.

(** X4: when the answer to the month-list request brings no months (the
    transport raises, the status is not 200, the body does not decode or
    is empty), the cycle of a logged-in coordinator does not degrade to
    an empty snapshot: it raises [UpdateFailed], having sent that one
    request and none for the datasets. *)
Theorem update_fails_without_months (st : State World) (a b : pyval) :
  authenticated (self st) = true ->
  dict_get (config (self st)) "pIdAsoc" = Some a ->
  dict_get (config (self st)) "pIdAp" = Some b ->
  no_months (fst (post (lista_request K a b) (world st))) ->
  raises (fst (_async_update_data post K st)) UpdateFailed /\
  sent (snd (_async_update_data post K st)) = sent st ++ [lista_request K a b].
Proof.
  intros Ha Hc1 Hc2 Hno.
  destruct (update_authenticated_run post K st a b Ha Hc1 Hc2)
    as (lista & s2 & Hrun & Hrest).
  destruct (with_session_keeps st) as (_ & _ & _ & Hw & Hsent).
  pose proof (with_session_has_session st) as Hs.
  destruct (fetch_data_step post K (URL_LISTA_LUNI K)
              (PDict [("pIdAsoc", a); ("pIdAp", b)]) (with_session st) Hs)
    as (v & s & Hrun' & _ & _ & Hsent' & Hempty).
  rewrite Hrun in Hrun'. inversion Hrun'; subst v s. clear Hrun'.
  rewrite Hw in Hempty. rewrite (Hempty Hno) in Hrest.
  cbn in Hrest. rewrite Hrest. simpl. split.
  - eexists. reflexivity.
  - now rewrite Hsent', Hsent.
Qed.

(** X5: once the month list gives an active month, the cycle of a
    logged-in coordinator returns a snapshot with that list and that
    month, whatever the portal answers to the three dataset requests. *)
Theorem update_returns_once_month_known
    (st : State World) (a b : pyval) (response : Response) (lista luna : pyval) :
  authenticated (self st) = true ->
  dict_get (config (self st)) "pIdAsoc" = Some a ->
  dict_get (config (self st)) "pIdAp" = Some b ->
  fst (post (lista_request K a b) (world st)) = Ok response ->
  status response = 200 -> json response = Ok lista ->
  _get_luna_activa lista = Ok luna ->
  exists home index receipts,
    fst (_async_update_data post K st) =
      Ok (PDict [("home", home); ("index", index); ("receipts", receipts);
                 ("lista_luni", lista); ("luna_activa", luna)]).
Proof.
  intros Ha Hc1 Hc2 Hpost Hstatus Hjson Hluna.
  destruct (update_authenticated_run post K st a b Ha Hc1 Hc2)
    as (lista' & s2 & Hrun & Hrest).
  destruct (with_session_keeps st) as (_ & _ & _ & Hw & _).
  pose proof (with_session_has_session st) as Hs.
  destruct (fetch_data_cases post K (URL_LISTA_LUNI K)
              (PDict [("pIdAsoc", a); ("pIdAp", b)]) (with_session st))
    as (v & s & Hrun' & _ & _ & Hsome).
  rewrite Hrun in Hrun'. inversion Hrun'; subst v s. clear Hrun'.
  destruct (Hsome Hs) as (_ & _ & Hv).
  rewrite Hw in Hv. unfold lista_request in Hpost. rewrite Hpost in Hv.
  cbn in Hv. rewrite Hstatus, Hjson in Hv. cbn in Hv. subst lista'.
  rewrite Hluna in Hrest.
  destruct Hrest as (home & s3 & index & s4 & receipts & s5 & _ & _ & _ & Hout).
  exists home, index, receipts. now rewrite Hout.
Qed.

(** X6: a logged-in coordinator sends the month-list request first; a
    cycle that raises has sent nothing else, and a cycle that returns
    has then sent the requests for home, index and receipts, in this
    order, each with the active month of the returned snapshot as
    [pLuna]. *)
Theorem update_requests_in_order (st : State World) (a b : pyval) :
  authenticated (self st) = true ->
  dict_get (config (self st)) "pIdAsoc" = Some a ->
  dict_get (config (self st)) "pIdAp" = Some b ->
  (forall e st', _async_update_data post K st = (inl e, st') ->
                 sent st' = sent st ++ [lista_request K a b]) /\
  (forall v st', _async_update_data post K st = (Ok v, st') ->
     exists luna,
       py_get v "luna_activa" PNone = Ok luna /\
       sent st' = sent st ++
         [lista_request K a b;
          dataset_request K (URL_HOME K) a b luna;
          dataset_request K (URL_INDEX K) a b luna;
          dataset_request K (URL_RECEIPTS K) a b luna]).
Proof.
  intros Ha Hc1 Hc2.
  destruct (update_authenticated_run post K st a b Ha Hc1 Hc2)
    as (lista & s2 & Hrun & Hrest).
  destruct (with_session_keeps st) as (_ & _ & _ & _ & Hsent).
  pose proof (with_session_has_session st) as Hs.
  destruct (fetch_data_sent _ _ _ _ _ Hs Hrun) as [Hself2 Hsent2].
  rewrite Hsent in Hsent2.
  destruct (_get_luna_activa lista) as [err|luna].
  - split.
    + intros e st' Hout. rewrite Hrest in Hout. inversion Hout; subst.
      exact Hsent2.
    + intros v st' Hout. rewrite Hrest in Hout. discriminate Hout.
  - destruct Hrest as (home & s3 & index & s4 & receipts & s5
                       & Hrun3 & Hrun4 & Hrun5 & Hout').
    assert (Hs2 : session (self s2) <> None) by now rewrite Hself2.
    destruct (fetch_data_sent _ _ _ _ _ Hs2 Hrun3) as [Hself3 Hsent3].
    assert (Hs3 : session (self s3) <> None) by now rewrite Hself3.
    destruct (fetch_data_sent _ _ _ _ _ Hs3 Hrun4) as [Hself4 Hsent4].
    assert (Hs4 : session (self s4) <> None) by now rewrite Hself4.
    destruct (fetch_data_sent _ _ _ _ _ Hs4 Hrun5) as [Hself5 Hsent5].
    split.
    + intros e st' Hout. rewrite Hout' in Hout. discriminate Hout.
    + intros v st' Hout. rewrite Hout' in Hout. inversion Hout; subst v st'.
      exists luna. split; [reflexivity|].
      rewrite Hsent5, Hsent4, Hsent3, Hsent2.
      unfold lista_request, dataset_request.
      repeat rewrite <- app_assoc. reflexivity.
Qed.
End LoggedInCycle.

(** ** Logging in within a cycle *)

Section LoginInCycle.
Context {World : Type}.
Context (post : Request -> World -> result Response * World).
Context (K : Const).

(** The state a welcomed login leaves. *)
Lemma authenticate_welcomed_run (st : State World) (u p : pyval)
    (response : Response) :
  session (self st) <> None ->
  dict_get (config (self st)) "pUser" = Some u ->
  dict_get (config (self st)) "pPass" = Some p ->
  fst (post (login_request K u p) (world st)) = Ok response ->
  welcomes response ->
  _authenticate post K st =
    (Ok tt, {| self := set_authenticated (self st) true;
               world := snd (post (login_request K u p) (world st));
               sent := sent st ++ [login_request K u p] |}).
Proof.
  intros Hs Hu Hp Hpost (Hstatus & body & Htext & Hmark).
  unfold _authenticate, login_request in *. run_method.
  rewrite Hu, Hp. simpl.
  destruct (session (self st)) as [s|]; [|contradiction].
  destruct (post _ (world st)) as [r w]. simpl in Hpost. subst r. simpl.
  rewrite Hstatus, Htext. simpl. rewrite Hmark. reflexivity.
Qed.

(** A cycle that logged in goes on as a cycle of the logged-in
    coordinator. *)
Lemma update_after_login (st s1 : State World) :
  authenticated (self st) = false ->
  _authenticate post K (with_session st) = (Ok tt, s1) ->
  _async_update_data post K st = _async_update_data post K s1.
Proof.
  intros Hfalse Hlogin.
  rewrite update_with_session.
  destruct (with_session_keeps st) as (_ & Hauth & _).
  pose proof (with_session_has_session st) as Hs0.
  rewrite <- Hauth in Hfalse. clear Hauth.
  remember (with_session st) as s0 eqn:E. clear E st.
  destruct (authenticate_outcome post K s0) as (r & s & Hrun & Hout).
  rewrite Hlogin in Hrun. inversion Hrun; subst r s. clear Hrun.
  destruct Hout as [[_ Hself]|[[[m Hm]|[m Hm]] _]];
    [|discriminate Hm|discriminate Hm].
  destruct (session (self s0)) as [ss|] eqn:Hss; [|contradiction].
  assert (Hs1 : session (self s1) = Some ss) by now rewrite Hself.
  assert (Ha1 : authenticated (self s1) = true) by now rewrite Hself.
  unfold _async_update_data, try_except_Exception, bind, get_self, put_self, ret.
  cbn -[_authenticate _fetch_data _get_luna_activa].
  rewrite Hss, Hfalse, Hlogin, Hs1, Ha1.
  cbn -[_authenticate _fetch_data _get_luna_activa].
  reflexivity.
Qed.

(** X7: a cycle of a coordinator that is not logged in starts with the
    login request; when the portal welcomes it, [authenticated] is true
    after the cycle whether the cycle then returns or raises, and no
    second login request is sent in it. *)
Theorem update_logs_in_first (st : State World) (u p : pyval) (response : Response) :
  authenticated (self st) = false ->
  dict_get (config (self st)) "pUser" = Some u ->
  dict_get (config (self st)) "pPass" = Some p ->
  fst (post (login_request K u p) (world st)) = Ok response ->
  welcomes response ->
  authenticated (self (snd (_async_update_data post K st))) = true /\
  exists rest,
    sent (snd (_async_update_data post K st)) =
      sent st ++ login_request K u p :: rest /\
    forall u' p', ~ In (login_request K u' p') rest.
Proof.
  intros Hfalse Hu Hp Hpost Hwelcome.
  destruct (with_session_keeps st) as (Hc & _ & _ & Hw & Hsent).
  pose proof (with_session_has_session st) as Hs0.
  rewrite <- Hc in Hu, Hp. rewrite <- Hw in Hpost.
  pose proof (authenticate_welcomed_run (with_session st) u p response
                Hs0 Hu Hp Hpost Hwelcome) as Hlogin.
  rewrite (update_after_login st _ Hfalse Hlogin).
  match type of Hlogin with _ = (_, ?s) => set (s1 := s) in * end.
  assert (Ha1 : authenticated (self s1) = true) by reflexivity.
  destruct (update_sends_data_only post K s1 Ha1) as [Hafter (new & Hnew & Hall)].
  split; [exact Hafter|].
  exists new. split.
  - rewrite Hnew. subst s1. cbn [sent]. rewrite Hsent.
    now rewrite <- app_assoc.
  - intros u' p' Hin. rewrite Forall_forall in Hall.
    exact (data_request_not_login K _ (Hall _ Hin) u' p' eq_refl).
Qed.

(** X8: [_authenticate] reads both credentials before it sends anything:
    when one of them is not configured it raises [KeyError] (not
    [UpdateFailed]) and leaves the state untouched; a cycle that has to
    log in then raises [UpdateFailed] without having sent any request. *)
Theorem authenticate_without_credentials (st : State World) :
  dict_get (config (self st)) "pUser" = None \/
  dict_get (config (self st)) "pPass" = None ->
  raises (fst (_authenticate post K st)) KeyError /\
  snd (_authenticate post K st) = st /\
  (authenticated (self st) = false ->
   raises (fst (_async_update_data post K st)) UpdateFailed /\
   sent (snd (_async_update_data post K st)) = sent st).
Proof.
  intros Hmissing.
  assert (Hrun : forall s : State World,
            config (self s) = config (self st) ->
            exists m, _authenticate post K s = (Raise KeyError m, s)).
  { intros s Hcfg. unfold _authenticate. run_method. rewrite Hcfg.
    destruct (dict_get (config (self st)) "pUser") as [u|];
      [|eexists; reflexivity].
    destruct Hmissing as [Hm|Hm]; [discriminate Hm|].
    rewrite Hm. eexists; reflexivity. }
  destruct (Hrun st eq_refl) as [m Hm].
  split; [rewrite Hm; now exists m|].
  split; [now rewrite Hm|].
  intros Hfalse.
  destruct (with_session_keeps st) as (Hc & _ & _ & _ & Hsent).
  destruct (Hrun (with_session st) Hc) as [m' Hm'].
  rewrite (update_login_raises post K st _ _ Hfalse Hm'). simpl.
  split; [eexists; reflexivity | exact Hsent].
Qed.
End LoginInCycle.

(** ** What no method changes *)

Section ObjectInvariants.
Context {World : Type}.
Context (post : Request -> World -> result Response * World).
Context (K : Const).

Let keeps_object (st st' : State World) : Prop :=
  config (self st') = config (self st) /\
  data (self st') = data (self st) /\
  (session (self st) <> None -> session (self st') <> None).

Lemma keeps_object_refl (st : State World) : keeps_object st st.
Proof. unfold keeps_object. repeat split; auto. Qed.

Lemma keeps_object_trans (a b c : State World) :
  keeps_object a b -> keeps_object b c -> keeps_object a c.
Proof.
  unfold keeps_object. intros (H1 & H2 & H3) (H4 & H5 & H6).
  split; [congruence|]. split; [congruence|]. auto.
Qed.

Lemma keeps_object_of_self (st st' : State World) :
  self st' = self st \/ self st' = set_authenticated (self st) true ->
  keeps_object st st'.
Proof. intros [H|H]; unfold keeps_object; rewrite H; repeat split; auto. Qed.

Lemma authenticate_keeps_object : preserves keeps_object (_authenticate post K).
Proof.
  intros st.
  destruct (authenticate_outcome post K st) as (r & st' & Hrun & [[_ Hs]|[_ Hs]]);
    rewrite Hrun; apply keeps_object_of_self; auto.
Qed.

Lemma fetch_data_keeps_object (url : string) (payload : pyval) :
  preserves keeps_object (_fetch_data post K url payload).
Proof.
  intros st. apply keeps_object_of_self. left. apply fetch_data_self.
Qed.

Lemma update_keeps_object : preserves keeps_object (_async_update_data post K).
Proof.
  apply update_preserves.
  - apply keeps_object_refl.
  - apply keeps_object_trans.
  - intros st. unfold keeps_object. simpl.
    split; [reflexivity|]. split; [reflexivity|]. discriminate.
  - intros st _. apply authenticate_keeps_object.
  - intros. apply fetch_data_keeps_object.
Qed.

(** X9: no sequence of calls of the coordinator's methods changes the
    configuration or the snapshot attribute, or takes a session away;
    and after a cycle, returned or raised, there is a session. *)
Theorem coordinator_object_invariants (ops : list operation) (st : State World) :
  config (self (after_all post K ops st)) = config (self st) /\
  data (self (after_all post K ops st)) = data (self st) /\
  (session (self st) <> None -> session (self (after_all post K ops st)) <> None) /\
  session (self (snd (_async_update_data post K st))) <> None.
Proof.
  assert (Hops : keeps_object st (after_all post K ops st)).
  { revert st. unfold after_all.
    induction ops as [|op ops IH]; intros st; simpl; [apply keeps_object_refl|].
    eapply keeps_object_trans; [|apply IH].
    destruct op; simpl.
    - apply authenticate_keeps_object.
    - apply fetch_data_keeps_object.
    - apply update_keeps_object. }
  destruct Hops as (H1 & H2 & H3).
  repeat split; try assumption.
  rewrite update_with_session.
  destruct (update_keeps_object (with_session st)) as (_ & _ & Hs).
  apply Hs. apply with_session_has_session.
Qed.

(** X10: against a portal none of whose answers brings months, every
    cycle raises [UpdateFailed], from whatever state and after whatever
    calls: an empty month list is never degraded to an empty snapshot. *)
Theorem update_fails_while_portal_down (ops : list operation) (st : State World) :
  (forall rq w, no_months (fst (post rq w))) ->
  raises (fst (_async_update_data post K (after_all post K ops st))) UpdateFailed.
Proof.
  intros Hdown.
  generalize (after_all post K ops st). clear st. intros st.
  destruct (update_outcome post K st) as [[v Hv]|Hraise]; [|exact Hraise].
  exfalso.
  destruct (_async_update_data post K st) as [r st'] eqn:Hrun. simpl in Hv. subst r.
  destruct (update_returned post K st st' v Hrun)
    as (lista & luna & home & index & receipts & _ & Hcycle).
  destruct Hcycle as (a & b & s1 & s2 & s3 & s4 & _ & Hlista & Hluna & _).
  assert (Hempty : lista = PDict []).
  { destruct (fetch_data_cases post K (URL_LISTA_LUNI K)
                (PDict [("pIdAsoc", a); ("pIdAp", b)]) s1)
      as (v' & s' & Hrun' & _ & Hnone & Hsome).
    rewrite Hlista in Hrun'. inversion Hrun'; subst v' s'. clear Hrun'.
    destruct (session (self s1)) as [ss|] eqn:Hss.
    - destruct (fetch_data_step post K (URL_LISTA_LUNI K)
                  (PDict [("pIdAsoc", a); ("pIdAp", b)]) s1)
        as (v' & s' & Hrun' & _ & _ & _ & Hno).
      { rewrite Hss. discriminate. }
      rewrite Hlista in Hrun'. inversion Hrun'; subst v' s'.
      apply Hno. apply Hdown.
    - now destruct (Hnone eq_refl). }
  subst lista. discriminate Hluna.
Qed.
End ObjectInvariants.

(** ** The further properties on the scripted portal *)

(** A logged-in coordinator and a portal that does not answer. *)
Lemma update_fails_without_months_witness :
  raises (fst (_async_update_data scripted_post test_const
                 (start_state logged_in []))) UpdateFailed /\
  sent (snd (_async_update_data scripted_post test_const
               (start_state logged_in [])))
  = [lista_request test_const (PStr "17") (PStr "4")].
Proof.
  exact (update_fails_without_months scripted_post test_const
           (start_state logged_in []) (PStr "17") (PStr "4")
           eq_refl eq_refl eq_refl I).
Defined.

(** The month list arrives and nothing else does: the snapshot has the
    list, its first month, and three empty datasets. *)
Lemma update_returns_once_month_known_witness :
  exists home index receipts,
    fst (_async_update_data scripted_post test_const
           (start_state logged_in [document two_months])) =
      Ok (PDict [("home", home); ("index", index); ("receipts", receipts);
                 ("lista_luni", two_months); ("luna_activa", PStr "2024-03")]).
Proof.
  exact (update_returns_once_month_known scripted_post test_const
           (start_state logged_in [document two_months]) (PStr "17") (PStr "4")
           {| status := 200; text := Ok ""; json := Ok two_months |}
           two_months (PStr "2024-03")
           eq_refl eq_refl eq_refl eq_refl eq_refl eq_refl eq_refl).
Defined.

(** The four requests of that cycle. *)
Lemma update_requests_in_order_witness :
  sent (snd (_async_update_data scripted_post test_const
               (start_state logged_in [document two_months])))
  = [lista_request test_const (PStr "17") (PStr "4");
     dataset_request test_const (URL_HOME test_const)
       (PStr "17") (PStr "4") (PStr "2024-03");
     dataset_request test_const (URL_INDEX test_const)
       (PStr "17") (PStr "4") (PStr "2024-03");
     dataset_request test_const (URL_RECEIPTS test_const)
       (PStr "17") (PStr "4") (PStr "2024-03")].
Proof.
  destruct (_async_update_data scripted_post test_const
              (start_state logged_in [document two_months]))
    as [[e|v] st'] eqn:Hrun.
  - vm_compute in Hrun. discriminate Hrun.
  - destruct (proj2 (update_requests_in_order scripted_post test_const
                       (start_state logged_in [document two_months])
                       (PStr "17") (PStr "4") eq_refl eq_refl eq_refl)
                v st' Hrun) as (luna & Hluna & Hsent).
    vm_compute in Hrun. inversion Hrun; subst v st'.
    vm_compute in Hluna. inversion Hluna; subst luna.
    exact Hsent.
Defined.

(** A new coordinator is let in, finds no months, and stays logged in. *)
Lemma update_logs_in_first_witness :
  authenticated
    (self (snd (_async_update_data scripted_post test_const
                  (start_state (__init__ test_config) [welcome_page])))) = true.
Proof.
  exact (proj1 (update_logs_in_first scripted_post test_const
                  (start_state (__init__ test_config) [welcome_page])
                  (PStr "ana") (PStr "secret")
                  {| status := 200;
                     text := Ok "<title>Acces online proprietari</title>";
                     json := Raise ClientError "unexpected mimetype: text/html" |}
                  eq_refl eq_refl eq_refl eq_refl
                  (conj eq_refl (ex_intro _ _ (conj eq_refl eq_refl))))).
Defined.

(** A coordinator without any configuration. *)
Lemma authenticate_without_credentials_witness :
  raises (fst (_authenticate scripted_post test_const
                 (start_state (__init__ []) [welcome_page]))) KeyError.
Proof.
  exact (proj1 (authenticate_without_credentials scripted_post test_const
                  (start_state (__init__ []) [welcome_page])
                  (or_introl eq_refl))).
Defined.

(** Three cycles against a portal that cannot be reached, then a
    fourth. *)
Lemma update_fails_while_portal_down_witness :
  raises
    (fst (_async_update_data unreachable_post test_const
            (after_all unreachable_post test_const
               [Call_async_update_data; Call_async_update_data;
                Call_async_update_data]
               {| self := __init__ test_config; world := tt; sent := [] |})))
    UpdateFailed.
Proof.
  exact (update_fails_while_portal_down unreachable_post test_const
           [Call_async_update_data; Call_async_update_data; Call_async_update_data]
           {| self := __init__ test_config; world := tt; sent := [] |}
           (fun _ _ => I)).
Defined.

(** ** The sensors, past the claims *)

Lemma home_field_reads_home (field : string) :
  reads_home (fun data => home_field data field) field.
Proof.
  intros data. unfold home_field, group_item, home_shape, home_value.
  split.
  - intros (d & -> & Hshape). simpl.
    destruct Hshape as [Hnone|(h & Hh & Hshape)].
    + rewrite Hnone. reflexivity.
    + rewrite Hh. simpl.
      destruct Hshape as [Hnone|(o & Ho)].
      * rewrite Hnone. reflexivity.
      * rewrite Ho. simpl. now destruct (dict_get o field).
  - intros Hnot.
    destruct data as [| | | | | |d]; try (eexists; reflexivity).
    simpl. destruct (dict_get d "home") as [h|] eqn:Hh.
    2:{ exfalso. apply Hnot. exists d. split; [reflexivity | now left]. }
    destruct h as [| | | | | |h]; try (eexists; reflexivity).
    simpl. destruct (dict_get h "1") as [o|] eqn:Ho.
    2:{ exfalso. apply Hnot. exists d. split; [reflexivity|].
        right. exists h. split; [exact Hh | now left]. }
    destruct o as [| | | | | |o]; try (eexists; reflexivity).
    exfalso. apply Hnot. exists d. split; [reflexivity|].
    right. exists h. split; [exact Hh|]. right. now exists o.
Qed.

(** X11: the eight sensors that show one field of the home summary
    return exactly on the snapshots in which ["home"] and its item ["1"]
    are dicts where present, with the field's value or [None] when any
    level is missing; on every other snapshot they raise
    [AttributeError]. *)
Theorem home_sensors_read_home :
  reads_home ClientSensor.native_value "cod_client" /\
  reads_home ApartamentSensor.native_value "ap" /\
  reads_home PersoaneSensor.native_value "nr_pers_afisat" /\
  reads_home UltimaZiSensor.native_value "ultima_zi_plata" /\
  reads_home IncepereCitireSensor.native_value "citire_contoare_start" /\
  reads_home IncheiereCitireSensor.native_value "citire_contoare_end" /\
  reads_home LunaVecheSensor.native_value "luna_veche" /\
  reads_home NivelRestantaSensor.native_value "nivel_restanta".
Proof. repeat split; apply home_field_reads_home. Qed.

Lemma append_inj_l (p s1 s2 : string) : (p ++ s1 = p ++ s2)%string -> s1 = s2.
Proof.
  induction p as [|c p IH]; simpl; intros H; [exact H|].
  inversion H. now apply IH.
Qed.

Lemma digits_of_inj (i j : Z) : 0 <= i -> 0 <= j -> digits_of i = digits_of j -> i = j.
Proof.
  intros Hi Hj H. unfold digits_of in H.
  assert (Hnn : forall n, N.to_uint n <> Decimal.Nil).
  { intros [|q]; [discriminate | apply DecimalPos.Unsigned.to_uint_nonnil]. }
  apply (f_equal NilZero.uint_of_string) in H.
  rewrite !NilZero.usu in H by apply Hnn.
  inversion H as [H']. apply DecimalN.Unsigned.to_uint_inj in H'.
  now apply Z2N.inj.
Qed.

Lemma receipt_key_inj (i j : Z) : 0 <= i -> 0 <= j -> receipt_key i = receipt_key j -> i = j.
Proof.
  intros Hi Hj H. unfold receipt_key in H.
  apply append_inj_l in H. now apply digits_of_inj.
Qed.

Lemma receipt_lines_keys (rt : Runtime) (rs : list pyval) :
  forall (i : Z) (acc attrs : pydict),
    1 <= i ->
    (forall k, In k (dict_keys acc) -> exists j, 1 <= j < i /\ k = receipt_key j) ->
    PlatiSensor.receipt_lines rt rs i acc = Ok attrs ->
    exists new,
      attrs = acc ++ new /\
      dict_keys new =
        map (fun j => receipt_key (i + Z.of_nat j)) (seq 0 (List.length rs)).
Proof.
  induction rs as [|r rs IH]; intros i acc attrs Hi Hacc Hrun; simpl in Hrun.
  - inversion Hrun; subst. exists []. split; [now rewrite app_nil_r | reflexivity].
  - destruct (PlatiSensor.receipt_line rt r) as [e|line]; [discriminate Hrun|].
    simpl in Hrun. fold (receipt_key i) in Hrun.
    rewrite dict_set_fresh in Hrun.
    2:{ intros Hin. destruct (Hacc _ Hin) as (j & Hj & Hk).
        apply receipt_key_inj in Hk; lia. }
    apply IH in Hrun; [|lia|].
    + destruct Hrun as (new & -> & Hkeys).
      exists ((receipt_key i, PStr line) :: new). split.
      * now rewrite <- app_assoc.
      * simpl. rewrite Z.add_0_r. f_equal.
        rewrite Hkeys, <- seq_shift, map_map.
        apply map_ext. intros j. f_equal. lia.
    + intros k Hin. unfold dict_keys in Hin. rewrite map_app in Hin.
      apply in_app_or in Hin. destruct Hin as [Hin|[<-|[]]].
      * destruct (Hacc _ Hin) as (j & Hj & Hk). exists j. split; [lia | exact Hk].
      * exists i. split; [lia | reflexivity].
Qed.

(** X12: the two reads of [PlatiSensor] agree: when
    [extra_state_attributes] returns, it has one line per receipt, with
    the keys "Chitanța 1", "Chitanța 2", ... in the order of the
    receipts, and [native_value] is the number of these lines. *)
Theorem plati_lines_match_count (rt : Runtime) (data : pyval) (attrs : pydict) :
  PlatiSensor.extra_state_attributes rt data = Ok (PDict attrs) ->
  PlatiSensor.native_value data = Ok (PInt (Z.of_nat (List.length attrs))) /\
  dict_keys attrs =
    map (fun j => receipt_key (Z.of_nat j)) (seq 1 (List.length attrs)).
Proof.
  unfold PlatiSensor.extra_state_attributes, PlatiSensor.native_value.
  destruct (py_get data "receipts" (PDict [])) as [e|receipts]; [discriminate|].
  cbn [rbind Ok].
  destruct receipts as [| | | | | |d];
    try (intros H; inversion H; subst; split; reflexivity).
  destruct (PlatiSensor.receipt_lines rt (dict_values d) 1 []) as [e|lines] eqn:Hrun;
    [discriminate|].
  cbn [rbind Ok]. intros H. inversion H; subst lines. clear H.
  apply receipt_lines_keys in Hrun; [|lia|intros k []].
  destruct Hrun as (new & -> & Hkeys). cbn [app] in *.
  assert (Hlen : List.length new = List.length d).
  { unfold dict_keys, dict_values in Hkeys.
    rewrite <- (length_map fst new), Hkeys.
    now rewrite length_map, length_seq, length_map. }
  split.
  - now rewrite Hlen.
  - rewrite Hkeys, Hlen. unfold dict_values. rewrite length_map.
    rewrite <- seq_shift, map_map. apply map_ext. intros j. f_equal. lia.
Qed.

(** Two receipts give two lines. *)
Lemma plati_lines_match_count_witness :
  PlatiSensor.native_value
    (PDict [("receipts",
             PDict [("1", PDict [("numar", PStr "88"); ("suma", PInt 12345)]);
                    ("2", PDict [("numar", PStr "89")])])])
  = Ok (PInt 2).
Proof.
  exact (proj1 (plati_lines_match_count test_runtime
                  (PDict [("receipts",
                           PDict [("1", PDict [("numar", PStr "88"); ("suma", PInt 12345)]);
                                  ("2", PDict [("numar", PStr "89")])])])
                  [("Chitanța 1", PStr "88 -  - 123.45 RON");
                   ("Chitanța 2", PStr "89 -  - 0.00 RON")]
                  eq_refl)).
Defined.

Lemma group_item_outcome (data : pyval) (group item : string) :
  returns (group_item data group item) \/
  raises (group_item data group item) AttributeError.
Proof.
  unfold group_item.
  destruct data as [| | | | | |d]; try (right; eexists; reflexivity).
  simpl. destruct (dict_get d group) as [g|]; simpl.
  - destruct g as [| | | | | |g]; try (right; eexists; reflexivity).
    simpl. destruct (dict_get g item); left; eexists; reflexivity.
  - left; eexists; reflexivity.
Qed.

Lemma meter_value_outcome (rt : Runtime) (data : pyval) (item : string) :
  meter_outcome (meter_value rt data item).
Proof.
  unfold meter_value, meter_outcome.
  destruct (group_item_outcome data "index" item) as [[d Hd]|[m Hm]].
  2:{ rewrite Hm. right; right; left. eexists; reflexivity. }
  rewrite Hd. cbn [rbind Ok].
  destruct d as [| | | | | |d];
    try (right; right; left; eexists; reflexivity).
  cbn [py_get].
  assert (Hraw : forall raw,
    let r := try_except
               (rbind (Ok raw) (fun raw =>
                rbind (py_float rt raw) (fun x =>
                rbind (py_round (PrimFloat.div x 1000%float) 3) (fun y =>
                Ok (PFloat y)))))
               [ValueError; TypeError] (fun _ => Ok PNone) in
    (exists y, r = Ok (PFloat y)) \/ r = Ok PNone \/
    raises r AttributeError \/ raises r OverflowError).
  { intros raw. cbn [rbind Ok].
    assert (Hround : forall x,
      let r := try_except
                 (rbind (py_round (PrimFloat.div x 1000%float) 3)
                    (fun y => Ok (PFloat y)))
                 [ValueError; TypeError] (fun _ => Ok PNone) in
      (exists y, r = Ok (PFloat y)) \/ r = Ok PNone \/
      raises r AttributeError \/ raises r OverflowError).
    { intros x.
      destruct (py_round_outcome (PrimFloat.div x 1000%float) 3) as [[y Hy]|[m Hm]].
      - rewrite Hy. left. now exists y.
      - rewrite Hm. right; right; right. eexists; reflexivity. }
    destruct raw as [|bo|n|x|s|l|dd]; cbn [py_float];
      try (right; left; reflexivity).
    - destruct bo; apply Hround.
    - destruct (float_of_int_outcome n) as [[x Hx]|[m Hm]].
      + rewrite Hx. apply Hround.
      + rewrite Hm. right; right; right. eexists; reflexivity.
    - apply Hround.
    - destruct (float_of_str rt s) as [x|]; [apply Hround|].
      right; left; reflexivity. }
  destruct (dict_get d "index_nou") as [raw|]; apply Hraw.
Qed.

(** X13: a meter sensor (cold water, hot water, heating, electricity)
    never lets a [ValueError] or a [TypeError] out: its read returns a
    float or [None], or raises [AttributeError] (a group that is not a
    dict) or [OverflowError] (a number too large for a float). *)
Theorem meter_sensors_outcome (rt : Runtime) (data : pyval) :
  meter_outcome (ApaReceSensor.native_value rt data) /\
  meter_outcome (ApaCaldaSensor.native_value rt data) /\
  meter_outcome (CalduraSensor.native_value rt data) /\
  meter_outcome (CurentSensor.native_value rt data).
Proof. repeat split; apply meter_value_outcome. Qed.

(** X14: [ContorTrimisSensor] shows "Da" exactly when the field
    ['contoare_citite'] is the string "1" (the number 1 or [true] give
    "Nu"), and whenever it returns it shows "Da" or "Nu". *)
Theorem contor_trimis_da_iff (data : pyval) :
  (ContorTrimisSensor.native_value data = Ok (PStr "Da") <->
   home_field data "contoare_citite" = Ok (PStr "1")) /\
  (forall v, ContorTrimisSensor.native_value data = Ok v ->
             v = PStr "Da" \/ v = PStr "Nu").
Proof.
  unfold ContorTrimisSensor.native_value.
  destruct (home_field data "contoare_citite") as [e|val]; cbn [rbind Ok].
  - split; [split; discriminate | discriminate].
  - unfold da_nu, py_eq_str. split.
    + split.
      * destruct val as [| | | |s| |]; try discriminate.
        destruct (String.eqb_spec s "1") as [->|Hne]; [reflexivity|discriminate].
      * intros H. inversion H; subst. reflexivity.
    + intros v H.
      destruct val as [| | | |s| |]; try (inversion H; now right).
      destruct (s =? "1")%string; inversion H; auto.
Qed.

(** X15: on the snapshot a cycle returns, [LunaCurentaSensor] shows the
    active month of the month list held in this same snapshot. *)
Theorem luna_curenta_shows_active_month {World : Type}
    (post : Request -> World -> result Response * World) (K : Const)
    (st st' : State World) (v : pyval) :
  _async_update_data post K st = (Ok v, st') ->
  exists lista_luni,
    py_get v "lista_luni" PNone = Ok lista_luni /\
    LunaCurentaSensor.native_value v = _get_luna_activa lista_luni.
Proof.
  intros Hrun.
  destruct (update_returned post K st st' v Hrun)
    as (lista & luna & home & index & receipts & -> & Hcycle).
  destruct Hcycle as (a & b & s1 & s2 & s3 & s4 & _ & _ & Hluna & _).
  exists lista. split; [reflexivity|].
  rewrite Hluna. reflexivity.
Qed.

Lemma luna_curenta_shows_active_month_witness :
  LunaCurentaSensor.native_value null_amounts_snapshot = Ok (PStr "2024-03").
Proof.
  destruct (luna_curenta_shows_active_month scripted_post test_const
              (start_state logged_in null_amounts_answers)
              (snd (_async_update_data scripted_post test_const
                      (start_state logged_in null_amounts_answers)))
              null_amounts_snapshot eq_refl) as (lista & Hlista & Hshow).
  vm_compute in Hlista. inversion Hlista; subst lista.
  rewrite Hshow. reflexivity.
Defined.

Lemma NoDup_map_injective {A B} (f : A -> B) (l : list A) :
  (forall x y, f x = f y -> x = y) -> NoDup l -> NoDup (map f l).
Proof.
  intros Hinj Hnd. induction Hnd as [|x l Hnotin Hnd IH]; simpl; constructor.
  - intros Hin. apply in_map_iff in Hin. destruct Hin as (y & Hy & Hin).
    apply Hinj in Hy. now subst y.
  - exact IH.
Qed.

(** X16: [async_setup_entry] registers sixteen sensors whose unique ids
    are pairwise different, whatever [DOMAIN] is, and whose names are
    pairwise different. *)
Theorem sensors_unique_ids (DOMAIN : string) :
  List.length sensors = 16%nat /\
  NoDup (map (_attr_unique_id DOMAIN) sensors) /\
  NoDup (map _attr_name sensors).
Proof.
  split; [reflexivity|]. split.
  - assert (Hsuffix : NoDup (map unique_id_suffix sensors)).
    { simpl. repeat constructor; simpl; intuition discriminate. }
    unfold _attr_unique_id.
    rewrite <- (map_map unique_id_suffix (fun s => (DOMAIN ++ s)%string)).
    apply NoDup_map_injective; [|exact Hsuffix].
    intros s1 s2. apply append_inj_l.
  - simpl. repeat constructor; simpl; intuition discriminate.
Qed.

(** X17: when [ClientSensor.extra_state_attributes] returns, it has its
    eight keys in their order, and six of its values are what the
    sensors of the same fields show on this snapshot. *)
Theorem client_attributes_agree (rt : Runtime) (data : pyval) (attrs : pydict) :
  ClientSensor.extra_state_attributes rt data = Ok (PDict attrs) ->
  dict_keys attrs =
    ["Apartament"; "Persoane"; "Restanță"; "Ultima zi plată"; "Contor trimis";
     "Perioadă citire"; "Luna veche"; "Nivel restanță"] /\
  option_map Ok (dict_get attrs "Apartament") =
    Some (ApartamentSensor.native_value data) /\
  option_map Ok (dict_get attrs "Persoane") =
    Some (PersoaneSensor.native_value data) /\
  option_map Ok (dict_get attrs "Ultima zi plată") =
    Some (UltimaZiSensor.native_value data) /\
  option_map Ok (dict_get attrs "Contor trimis") =
    Some (ContorTrimisSensor.native_value data) /\
  option_map Ok (dict_get attrs "Luna veche") =
    Some (LunaVecheSensor.native_value data) /\
  option_map Ok (dict_get attrs "Nivel restanță") =
    Some (NivelRestantaSensor.native_value data).
Proof.
  unfold ClientSensor.extra_state_attributes, ApartamentSensor.native_value,
    PersoaneSensor.native_value, UltimaZiSensor.native_value,
    ContorTrimisSensor.native_value, LunaVecheSensor.native_value,
    NivelRestantaSensor.native_value, home_field.
  destruct (group_item data "home" "1") as [e|d]; [discriminate|].
  cbn [rbind Ok].
  destruct d as [| | | | | |d]; try discriminate.
  cbn [py_get].
  destruct (format_ron rt
              match dict_get d "datorie" with Some x => x | None => PInt 0 end)
    as [e|ron] eqn:Hron.
  - intros H. exfalso. revert H.
    destruct (dict_get d "ap"), (dict_get d "nr_pers_afisat"),
      (dict_get d "datorie"); cbn [rbind Ok]; rewrite Hron; discriminate.
  - intros H.
    assert (Hattrs : attrs =
      [("Apartament", match dict_get d "ap" with Some x => x | None => PNone end);
       ("Persoane", match dict_get d "nr_pers_afisat" with Some x => x | None => PNone end);
       ("Restanță", PStr ron);
       ("Ultima zi plată",
        match dict_get d "ultima_zi_plata" with Some x => x | None => PNone end);
       ("Contor trimis",
        da_nu match dict_get d "contoare_citite" with Some x => x | None => PNone end);
       ("Perioadă citire",
        PStr (py_str rt match dict_get d "citire_contoare_start" with
                        | Some x => x | None => PStr "" end
              ++ " - "
              ++ py_str rt match dict_get d "citire_contoare_end" with
                           | Some x => x | None => PStr "" end));
       ("Luna veche", match dict_get d "luna_veche" with Some x => x | None => PNone end);
       ("Nivel restanță",
        match dict_get d "nivel_restanta" with Some x => x | None => PNone end)]).
    { revert H.
      destruct (dict_get d "ap"), (dict_get d "nr_pers_afisat"),
        (dict_get d "datorie"), (dict_get d "ultima_zi_plata"),
        (dict_get d "contoare_citite"), (dict_get d "citire_contoare_start"),
        (dict_get d "citire_contoare_end"), (dict_get d "luna_veche"),
        (dict_get d "nivel_restanta");
        cbn [rbind Ok]; rewrite Hron; cbn [rbind Ok];
        intros H; inversion H; reflexivity. }
    subst attrs. clear H.
    split; [reflexivity|].
    repeat split;
      match goal with
      | |- context [dict_get d ?k] => destruct (dict_get d k); reflexivity
      end.
Qed.

(** A home summary with a debt of 12345 and its apartment number. *)
Lemma client_attributes_agree_witness :
  ApartamentSensor.native_value
    (PDict [("home", PDict [("1", PDict [("ap", PStr "4"); ("datorie", PInt 12345)])])])
  = Ok (PStr "4").
Proof.
  destruct (client_attributes_agree test_runtime
              (PDict [("home", PDict [("1", PDict [("ap", PStr "4");
                                                    ("datorie", PInt 12345)])])])
              [("Apartament", PStr "4"); ("Persoane", PNone);
               ("Restanță", PStr "123.45 RON"); ("Ultima zi plată", PNone);
               ("Contor trimis", PStr "Nu"); ("Perioadă citire", PStr " - ");
               ("Luna veche", PNone); ("Nivel restanță", PNone)]
              eq_refl) as (_ & Hap & _).
  vm_compute in Hap. inversion Hap as [Heq]. reflexivity.
Defined.

(** X18: [RestantaSensor] has no guard around [int()]. On a well-shaped
    snapshot a falsy ['datorie'] (absent, null, 0, "", an empty list)
    reads as 0.0 without being converted, a non-empty list or dict
    raises [TypeError], and a non-empty text that [int()] rejects raises
    [ValueError]. *)
Theorem restanta_unguarded (rt : Runtime) (data : pyval) :
  home_shape data ->
  let datorie := home_value data "datorie" in
  (truthy datorie = false ->
   RestantaSensor.native_value rt data = Ok (PFloat 0%float)) /\
  (truthy datorie = true ->
   (exists l, datorie = PList l) \/ (exists d, datorie = PDict d) ->
   raises (RestantaSensor.native_value rt data) TypeError) /\
  (forall s, datorie = PStr s -> s <> ""%string -> int_of_str rt s = None ->
   raises (RestantaSensor.native_value rt data) ValueError).
Proof.
  intros Hshape datorie.
  unfold RestantaSensor.native_value.
  rewrite (proj1 (home_field_reads_home "datorie" data) Hshape).
  fold datorie. cbn [rbind Ok].
  split; [|split].
  - intros Hf. now rewrite Hf.
  - intros Ht [[l Hl]|[d Hd]]; rewrite Ht; [rewrite Hl | rewrite Hd];
      eexists; reflexivity.
  - intros s Hs Hne Hrej. rewrite Hs. cbn [truthy py_int].
    destruct (String.eqb_spec s "") as [->|_]; [contradiction|].
    cbn [negb]. rewrite Hrej. eexists; reflexivity.
Qed.

(** A debt given as the text "n/a". *)
Lemma restanta_unguarded_witness :
  raises (RestantaSensor.native_value test_runtime
            (PDict [("home", PDict [("1", PDict [("datorie", PStr "n/a")])])]))
    ValueError.
Proof.
  refine (proj2 (proj2 (restanta_unguarded test_runtime
            (PDict [("home", PDict [("1", PDict [("datorie", PStr "n/a")])])])
            _)) "n/a" eq_refl _ eq_refl).
  - eexists. split; [reflexivity|]. right. eexists. split; [reflexivity|].
    right. eexists. reflexivity.
  - discriminate.
Defined.

Section OneRequest.
Context {World : Type}.
Context (post : Request -> World -> result Response * World).
Context (K : Const).

(** X19: [_fetch_data] sends one request, with the URL and the payload it
    was given and the data headers, and moves the portal by that request
    only; without a session it sends nothing, leaves the state as it was
    and still returns the empty dict. *)
Theorem fetch_data_one_request (url : string) (payload : pyval) (st : State World) :
  let rq := {| req_url := url; req_data := payload;
               req_headers := HEADERS_POST K |} in
  (session (self st) <> None ->
   sent (snd (_fetch_data post K url payload st)) = sent st ++ [rq] /\
   world (snd (_fetch_data post K url payload st)) = snd (post rq (world st))) /\
  (session (self st) = None ->
   _fetch_data post K url payload st = (Ok (PDict []), st)).
Proof.
  intros rq.
  destruct (fetch_data_cases post K url payload st)
    as (v & st' & Hrun & _ & Hnone & Hsome).
  rewrite Hrun. simpl. split.
  - intros Hs. destruct (Hsome Hs) as (Hw & Hsent & _). now split.
  - intros Hs. destruct (Hnone Hs) as [-> ->]. reflexivity.
Qed.

(** X20: with a session and both credentials, [_authenticate] sends
    exactly the login request, whether it is let in or not, and moves
    the portal by that request only. *)
Theorem authenticate_one_request (st : State World) (u p : pyval) :
  session (self st) <> None ->
  dict_get (config (self st)) "pUser" = Some u ->
  dict_get (config (self st)) "pPass" = Some p ->
  sent (snd (_authenticate post K st)) = sent st ++ [login_request K u p] /\
  world (snd (_authenticate post K st)) =
    snd (post (login_request K u p) (world st)).
Proof.
  intros Hs Hu Hp. unfold _authenticate, login_request. run_method.
  rewrite Hu, Hp. simpl.
  destruct (session (self st)) as [s|]; [|contradiction].
  destruct (post _ (world st)) as [[e|response] w]; simpl; [now split|].
  destruct (status response =? 200); [|now split].
  destruct (text response) as [e|body]; simpl; [now split|].
  destruct (str_contains _ body); now split.
Qed.
End OneRequest.

(** A login that is refused has still been sent. *)
Lemma authenticate_one_request_witness :
  sent (snd (_authenticate scripted_post test_const
               (start_state logged_out [page "Parola gresita"])))
  = [login_request test_const (PStr "ana") (PStr "secret")].
Proof.
  exact (proj1 (authenticate_one_request scripted_post test_const
                  (start_state logged_out [page "Parola gresita"])
                  (PStr "ana") (PStr "secret")
                  ltac:(discriminate) eq_refl eq_refl)).
Defined.
